(** * LQM: the tiered, budget-gated prediction pipeline

    A shallow embedding of the Python sources [firestore_util.py],
    [qpu_client.py], [circuits.py], [model.py], [sim.py], [backtest.py],
    [tune.py], [assessment.py] and [app.py], and the properties of the
    pipeline stated over it.

    Python values are modelled as follows:
    - [int] is [Z];
    - [float] is the kernel's binary64 [float] (IEEE 754 double, the format of
      CPython's float), so that NaN, signed zeros and rounding are the code's;
    - [dict] with string keys is [gmap string _];
    - [list] is [list], indexed assignment is stdpp's list insert;
    - a raised exception is the [Raise] outcome of the [M] monad, which also
      threads the process state ([World]) the code reads and mutates. *)

From Stdlib Require Import ZArith List Lia Bool String Floats.
From stdpp Require Import base option list gmap strings.

Set Warnings "-inexact-float".

Local Open Scope string_scope.
Local Open Scope list_scope.
Local Open Scope Z_scope.

(* ================================================================== *)
(** * 1. Python primitives *)
(* ================================================================== *)

(** Exceptions the modelled code can raise. *)
Inductive exn : Type :=
  | KeyError (key : string)
  | IndexError
  | ZeroDivisionError
  | JSONDecodeError
  | ValueError (msg : string)
  | TypeError (msg : string)
  | BackendFault (code : Z).

Inductive result (A : Type) : Type :=
  | Ok (a : A)
  | Raise (e : exn).
Arguments Ok {A} a.
Arguments Raise {A} e.

Module Py.

(** [x >= y], [x > y], [x < y], [x <= y], [x == y] on floats: IEEE
    comparisons, all false on NaN. *)
Definition ge (x y : float) : bool := PrimFloat.leb y x.
Definition gt (x y : float) : bool := PrimFloat.ltb y x.
Definition lt (x y : float) : bool := PrimFloat.ltb x y.
Definition le (x y : float) : bool := PrimFloat.leb x y.
Definition eq (x y : float) : bool := PrimFloat.eqb x y.

(** The builtin [min(a, b)]: the first argument unless the second is
    strictly smaller (so [min(nan, 1.0)] is [nan]). *)
Definition min (a b : float) : float := if lt b a then b else a.

(** Float true division: a zero divisor raises. *)
Definition truediv (x y : float) : result float :=
  if eq y 0%float then Raise ZeroDivisionError else Ok (PrimFloat.div x y).

(** [float(n)] for an int that fits a double exactly or not: round to
    nearest even. *)
Definition of_int (n : Z) : float :=
  SF2Prim (binary_normalize prec emax n 0 false).

(** Round-half-even of the rational [n / d], [d > 0]. *)
Definition round_half_even (n d : Z) : Z :=
  let q := n / d in
  let r := n mod d in
  if 2 * r <? d then q
  else if d <? 2 * r then q + 1
  else if Z.even q then q else q + 1.

(** The double nearest to the decimal [k / 100], [k >= 0], with sign [s]:
    the correctly rounded quotient of [k] by [100]. *)
Definition hundredths (s : bool) (k : Z) : float :=
  match k with
  | Z.pos p =>
      SF2Prim (SFdiv prec emax (S754_finite s p 0) (S754_finite false 100 0))
  | _ => SF2Prim (S754_zero s)
  end.

(** The builtin [round(x, 2)] on a float: the exact binary value of [x] is
    rounded half-even to two decimals, and the decimal is converted back to
    the nearest double.  NaN, infinities and zeros round to themselves, and so
    do the finite values with a non-negative exponent, which are integers. *)
Definition round2 (x : float) : float :=
  match Prim2SF x with
  | S754_finite s m e =>
      if 0 <=? e then x
      else hundredths s (round_half_even (100 * Z.pos m) (2 ^ (- e)))
  | _ => x
  end.

(** Int true division [a / b]: the correctly rounded quotient of the two
    integers; a zero divisor raises.  (A quotient too large for a double
    raises OverflowError in Python and is an infinity here; the counts of a
    histogram are far from it.) *)
Definition int_truediv (a b : Z) : result float :=
  match b with
  | Z0 => Raise ZeroDivisionError
  | _ =>
      let s := xorb (a <? 0) (b <? 0) in
      match Z.abs a, Z.abs b with
      | Z.pos p, Z.pos q =>
          Ok (SF2Prim (SFdiv prec emax (S754_finite s p 0) (S754_finite false q 0)))
      | _, _ => Ok (SF2Prim (S754_zero s))
      end
  end.

(** [l[i]] for a possibly negative index [i]. *)
Definition index {A} (l : list A) (i : Z) : result A :=
  let n := Z.of_nat (length l) in
  let k := if i <? 0 then n + i else i in
  if (0 <=? k) && (k <? n) then
    match l !! Z.to_nat k with Some a => Ok a | None => Raise IndexError end
  else Raise IndexError.

(** [l[i] = v] for a natural index: out of range raises. *)
Definition setitem {A} (l : list A) (i : nat) (v : A) : result (list A) :=
  if (i <? length l)%nat then Ok (<[i := v]> l) else Raise IndexError.

(** [d[k]] on a dict: a missing key raises. *)
Definition getitem {V} (d : gmap string V) (k : string) : result V :=
  match d !! k with Some v => Ok v | None => Raise (KeyError k) end.

(** [enumerate(l)]. *)
Definition enumerate {A} (l : list A) : list (nat * A) :=
  zip (seq 0 (length l)) l.

(** [s.tail(w)]: the last [w] items. *)
Definition tail {A} (w : nat) (l : list A) : list A :=
  drop (length l - w)%nat l.

End Py.

(** The error monad of pure fallible code. *)
#[export] Instance result_ret : MRet result := fun _ a => Ok a.
#[export] Instance result_bind : MBind result := fun _ _ f m =>
  match m with Ok a => f a | Raise e => Raise e end.

(** [[f(x) for x in l]]: left to right, the first exception aborts. *)
Fixpoint result_mapM {A B} (f : A -> result B) (l : list A) : result (list B) :=
  match l with
  | [] => Ok []
  | x :: l' =>
      match f x with
      | Raise e => Raise e
      | Ok y =>
          match result_mapM f l' with
          | Raise e => Raise e
          | Ok ys => Ok (y :: ys)
          end
      end
  end.

(* ================================================================== *)
(** * 2. Data model *)
(* ================================================================== *)

(** A FeatureRecord: the dict of one batch item. *)
Abbreviation Feature := (gmap string float).

(** An OutcomeHistogram as [qpu_client.submit] returns it: a dict with the
    keys ["1"] and ["0"]. *)
Abbreviation Histogram := (gmap string Z).

(** What [circuits.build_circuit] produces: the rotation angle of the Ry gate
    on the first qubit (the rest of the circuit is fixed: a CNOT and the
    measurement of key [m]) and the circuit's name. *)
Record Circuit : Type := mkCircuit {
  ry_theta : float;
  circuit_name : string;
}.

(** The content of a parameter override file, as [json.loads] sees it: a
    JSON object whose values are all floats, or text that is not JSON.  (A
    document that parses to something else, and an object with a value that
    is not a float, are not covered: [RULES] holds floats here.) *)
Inductive override_text : Type :=
  | JsonObject (params : gmap string float)
  | NotJson.

(** [OptionsPredictor]: a dataclass with two defaulted fields. *)
Record OptionsPredictor : Type := mkPredictor {
  lookback_days : Z;
  ticker : string;
}.
Definition default_predictor : OptionsPredictor :=
  {| lookback_days := 20; ticker := "AAPL" |}.

(** One row of the frame [sim.simulate] returns. *)
Record BacktestRow : Type := mkRow {
  row_date : nat;
  ret_7d : float;
  signal : Z;
}.

(** The collaborators outside the repository that the code calls. *)
Class External : Type := {
  (** the state of the simulator's random source *)
  Rng : Type;
  (** one repetition of a circuit on [cirq.Simulator]: the measured value of
      key [m] (or a fault of the backend), and the advanced random source *)
  measure : Circuit -> Rng -> result bool * Rng;
  (** pandas' [Series.mean()] on a float series *)
  series_mean : list float -> float;
  (** [hashlib.md5(str(feature).encode()).hexdigest()[:8]] *)
  md5_tag : Feature -> string;
}.

Section Program.

Context `{External}.

(** The process state the code reads and writes. *)
Record World : Type := mkWorld {
  (** the module global [model.RULES] *)
  RULES : gmap string float;
  (** the Firestore document [lqm_logs/shot_counter], if it exists *)
  counter_doc : option (gmap string Z);
  (** [_today_key()]: the UTC day, as [%Y-%m-%d] *)
  utc_today : string;
  (** the [Close] column of [yf.download(ticker, period=f"{n}d")] *)
  close_recent : string -> Z -> list float;
  (** the [Close] column of [yf.download(ticker, start, end)] for the
      window that starts [days] days before today *)
  close_window : string -> Z -> list float;
  (** the simulator's random source *)
  rng : Rng;
}.

Definition set_counter_doc (d : option (gmap string Z)) (w : World) : World :=
  {| RULES := RULES w; counter_doc := d; utc_today := utc_today w;
     close_recent := close_recent w; close_window := close_window w;
     rng := rng w |}.

Definition set_rng (r : Rng) (w : World) : World :=
  {| RULES := RULES w; counter_doc := counter_doc w; utc_today := utc_today w;
     close_recent := close_recent w; close_window := close_window w;
     rng := r |}.

(** Stateful, fallible code: the outcome and the state left behind (a
    raised exception keeps the effects that happened before it). *)
Definition M (A : Type) : Type := World -> result A * World.

#[export] Instance M_ret : MRet M := fun _ a w => (Ok a, w).
#[export] Instance M_bind : MBind M := fun _ _ f m w =>
  match m w with
  | (Ok a, w') => f a w'
  | (Raise e, w') => (Raise e, w')
  end.

Definition lift {A} (r : result A) : M A := fun w => (r, w).
Definition gets {A} (f : World -> A) : M A := fun w => (Ok (f w), w).

(** ** firestore_util.py *)

Definition _DAILY_BUDGET : Z := 2500.

(** [data.get(today, 0)] on [snap.to_dict() or {}]. *)
Definition used_today (w : World) : Z :=
  default 0 (default ∅ (counter_doc w) !! utc_today w).

(** The inner function [txn(tx)] of [use_shots] (lines 35-43), on the
    counter document it reads with [doc.get(transaction=tx)] and writes with
    [tx.set(doc, data)]. *)
Definition txn (n : Z) (today : string) : M bool := fun w =>
  let data := default ∅ (counter_doc w) in
  let used := default 0 (data !! today) in
  if used + n >? _DAILY_BUDGET then (Ok false, w)
  else (Ok true, set_counter_doc (Some (<[today := used + n]> data)) w).

(** [db.transaction()(f)], line 45: [db.transaction()] is a [Transaction]
    object, and a [Transaction] is not callable (only the wrapper that
    [firestore.transactional] builds is), so the call raises [TypeError]
    and [f] is not run. *)
Definition not_callable : exn :=
  TypeError "'Transaction' object is not callable".
Definition call_transaction {A} (f : M A) : M A :=
  fun w => (Raise not_callable, w).

Definition use_shots (n : Z) : M bool :=
  today ← gets utc_today;
  call_transaction (txn n today).

(** ** circuits.py *)

Definition math_pi : float := 3.141592653589793%float.

Definition build_circuit (feature : Feature) : result Circuit :=
  spot ← Py.getitem feature "spot_price";
  strike ← Py.getitem feature "strike_price";
  strike' ← Py.getitem feature "strike_price";
  diff ← Py.truediv (PrimFloat.sub spot strike) strike';
  let theta := PrimFloat.mul diff math_pi in
  mret {| ry_theta := theta; circuit_name := ("lqm_" ++ md5_tag feature)%string |}.

(** ** qpu_client.py *)

Definition shots_per_row : Z := 100.

(** [simulator.run(c, repetitions)]: the measured values of key [m]. *)
Fixpoint simulator_run (c : Circuit) (repetitions : nat) : M (list bool) :=
  match repetitions with
  | O => mret []
  | S k =>
      b ← (fun w => let (r, g) := measure c (rng w) in (r, set_rng g w));
      bs ← simulator_run c k;
      mret (b :: bs)
  end.

(** [r.histogram(key="m")]: a Counter of the measured values. *)
Definition histogram (ms : list bool) : gmap Z Z :=
  foldr (fun (b : bool) h =>
           let k := if b then 1 else 0 in
           <[k := default 0 (h !! k) + 1]> h) ∅ ms.

Fixpoint submit (circuits : list Circuit) : M (list Histogram) :=
  match circuits with
  | [] => mret []
  | c :: rest =>
      r ← simulator_run c (Z.to_nat shots_per_row);
      let ones := default 0 (histogram r !! 1) in
      let zeros := shots_per_row - ones in
      let h : Histogram := <["0" := zeros]> (<["1" := ones]> ∅) in
      results ← submit rest;
      mret (h :: results)
  end.

(** ** model.py *)

(** *** 1. RULES (defaults) and the override files *)

(** The values of [RULES] are floats; the two int literals [70] and [30] are
    the doubles equal to them (they are only compared with floats). *)

Definition DEFAULT_RULES : gmap string float :=
  list_to_map
    [ ("ma_trend_weight", 0.4%float);
      ("rsi_extreme_weight", 0.3%float);
      ("vol_rank_weight", 0.2%float);
      ("momentum_3d_weight", 0.1%float);
      ("rsi_high", 70%float);
      ("rsi_low", 30%float);
      ("iv_rank_high", 0.7%float);
      ("iv_rank_low", 0.3%float);
      ("angle_0", 1.5707%float);
      ("angle_1", 1.5707%float) ].

Definition override_files : list string := ["best_params.json"; "rules.json"].

(** The loop at import time over the files next to [model.py]: the first
    file that exists is parsed and merged with [RULES.update], and the loop
    breaks. *)
Fixpoint load_overrides (files : gmap string override_text)
    (fnames : list string) (rules : gmap string float)
    : result (gmap string float) :=
  match fnames with
  | [] => Ok rules
  | fname :: rest =>
      match files !! fname with
      | Some (JsonObject params) => Ok (params ∪ rules)
      | Some NotJson => Raise JSONDecodeError
      | None => load_overrides files rest rules
      end
  end.

(** The value of [RULES] once [model.py] is imported. *)
Definition load_rules (files : gmap string override_text)
    : result (gmap string float) :=
  load_overrides files override_files DEFAULT_RULES.

(** *** 2. Helper functions *)

Definition fetch_last_n (ticker : string) (n : Z) : M (list float) :=
  gets (fun w => close_recent w ticker n).

Definition ma (df : list float) (w : nat) : float :=
  series_mean (Py.tail w df).

(** [s.diff()], [s.dropna()], [s.clip(lower=0)], [s.clip(upper=0)]. *)
Definition series_diff (s : list float) : list float :=
  match s with
  | [] => []
  | _ :: t => nan :: zip_with (fun prev cur => PrimFloat.sub cur prev) s t
  end.
Definition dropna (s : list float) : list float :=
  filter (fun x => is_nan x = false) s.
Definition clip_lower0 (x : float) : float := if Py.lt x 0 then 0%float else x.
Definition clip_upper0 (x : float) : float := if Py.gt x 0 then 0%float else x.

Definition rsi (df : list float) (w : nat) : result float :=
  let delta := dropna (series_diff df) in
  let gains := map clip_lower0 delta in
  let losses := map (fun x => PrimFloat.opp (clip_upper0 x)) delta in
  if (length delta <? w)%nat then Ok 50%float
  else
    let avg_gain := series_mean (Py.tail w gains) in
    let avg_loss := series_mean (Py.tail w losses) in
    if Py.eq avg_loss 0 then
      Ok (if Py.gt avg_gain 0 then 100%float else 50%float)
    else
      rs ← Py.truediv avg_gain avg_loss;
      q ← Py.truediv 100 (PrimFloat.add 1 rs);
      mret (PrimFloat.sub 100 q).

(** The mean of a boolean series: the count of [True] over the length (the
    sum of ones is exact), NaN when the series is empty. *)
Definition bool_mean (bs : list bool) : float :=
  match Py.int_truediv (Z.of_nat (length (filter (fun b : bool => b = true) bs)))
                       (Z.of_nat (length bs)) with
  | Ok x => x
  | Raise _ => nan
  end.

Definition iv_rank (cur_iv : float) (hist : list float) : float :=
  bool_mean (map (fun h => Py.lt h cur_iv) hist).

(** *** 3. Predictor class *)

Definition QPU_THRESHOLD : float := 0.75%float.
Definition SHOTS_PER_FEAT : Z := shots_per_row.

Definition sign_factor (b : bool) : float := if b then 1%float else (-1)%float.

(** Lines 79-100 of [_classical_predict]: the accumulated [score]. *)
Definition classical_score (rules : gmap string float) (df : list float)
    : result float :=
  close ← Py.index df (-1);
  let ma10 := ma df 10 in
  c4 ← Py.index df (-4);
  c4' ← Py.index df (-4);
  mom3d ← Py.truediv (PrimFloat.sub close c4) c4';
  rsi14 ← rsi df 14;
  let iv_today := 0.35%float in
  let iv_hist := [0.25; 0.28; 0.30; 0.27; 0.33; 0.38; 0.31]%float in
  let iv_rnk := iv_rank iv_today iv_hist in
  let score := 0%float in
  w_ma ← Py.getitem rules "ma_trend_weight";
  let score := PrimFloat.add score (PrimFloat.mul w_ma (sign_factor (Py.gt close ma10))) in
  w_mom ← Py.getitem rules "momentum_3d_weight";
  let score := PrimFloat.add score (PrimFloat.mul w_mom (sign_factor (Py.gt mom3d 0))) in
  rsi_high ← Py.getitem rules "rsi_high";
  score ← (if Py.ge rsi14 rsi_high then
             w ← Py.getitem rules "rsi_extreme_weight"; mret (PrimFloat.sub score w)
           else
             rsi_low ← Py.getitem rules "rsi_low";
             if Py.le rsi14 rsi_low then
               w ← Py.getitem rules "rsi_extreme_weight"; mret (PrimFloat.add score w)
             else mret score);
  iv_high ← Py.getitem rules "iv_rank_high";
  score ← (if Py.ge iv_rnk iv_high then
             w ← Py.getitem rules "vol_rank_weight"; mret (PrimFloat.sub score w)
           else
             iv_low ← Py.getitem rules "iv_rank_low";
             if Py.le iv_rnk iv_low then
               w ← Py.getitem rules "vol_rank_weight"; mret (PrimFloat.add score w)
             else mret score);
  mret score.

(** Lines 102-104: the prediction and the confidence of a score. *)
Definition prediction_of (score : float) : Z :=
  if Py.ge score 0 then 1 else -1.
Definition confidence_of (score : float) : float :=
  Py.round2 (Py.min (PrimFloat.abs score) 1).

Definition _classical_predict (self : OptionsPredictor) : M (Z * float) :=
  df ← fetch_last_n (ticker self) (lookback_days self);
  rules ← gets RULES;
  score ← lift (classical_score rules df);
  mret (prediction_of score, confidence_of score).

(** The body of the loop [for j, i in enumerate(idx_qpu)]: the histogram
    [hists[j]] overwrites the prediction and the confidence of record [i]. *)
Definition fuse_one (hists : list Histogram) (acc : list Z * list float)
    (ji : nat * nat) : result (list Z * list float) :=
  let '(j, i) := ji in
  let '(preds, confs) := acc in
  h ← Py.index hists (Z.of_nat j);
  let ones := default 0 (h !! "1") in
  h' ← Py.index hists (Z.of_nat j);
  let zeros := default 0 (h' !! "0") in
  let total := Z.max (ones + zeros) 1 in
  p_up ← Py.int_truediv ones total;
  preds' ← Py.setitem preds i (if Py.ge p_up 0.5 then 1 else -1);
  confs' ← Py.setitem confs i
             (Py.round2 (PrimFloat.mul (PrimFloat.abs (PrimFloat.sub p_up 0.5)) 2));
  mret (preds', confs').

Fixpoint fuse (hists : list Histogram) (acc : list Z * list float)
    (todo : list (nat * nat)) : result (list Z * list float) :=
  match todo with
  | [] => Ok acc
  | ji :: rest =>
      match fuse_one hists acc ji with
      | Ok acc' => fuse hists acc' rest
      | Raise e => Raise e
      end
  end.

(** [[i for i, c in enumerate(confs) if c >= QPU_THRESHOLD]]. *)
Definition select_qpu (confs : list float) : list nat :=
  map fst (filter (fun ic : nat * float => Py.ge (snd ic) QPU_THRESHOLD = true)
                  (Py.enumerate confs)).

Definition batch_predict (self : OptionsPredictor) (feats : list Feature)
    : M (list Z * list float) :=
  (* 1) preview with classical logic *)
  '(pred, conf) ← _classical_predict self;
  let preds := replicate (length feats) pred in
  let confs := replicate (length feats) conf in
  (* 2) determine which rows qualify for QPU refinement *)
  let idx_qpu := select_qpu confs in
  let needed_shots := Z.of_nat (length idx_qpu) * SHOTS_PER_FEAT in
  (* 3) fire to QPU if budget allows *)
  go ← (match idx_qpu with [] => mret false | _ => use_shots needed_shots end);
  if (go : bool) then
    circuits_batch ←
      lift (result_mapM (fun i : nat =>
                           f ← Py.index feats (Z.of_nat i); build_circuit f)
                        idx_qpu);
    hists ← submit circuits_batch;
    lift (fuse hists (preds, confs) (Py.enumerate idx_qpu))
  else mret (preds, confs).

(** ** sim.py *)

Definition _build_features (close_px : float) : list Feature :=
  [ list_to_map
      [ ("spot_price", close_px);
        ("strike_price", PrimFloat.mul close_px 1.05%float);
        ("volatility", 0.25%float);
        ("time_to_maturity", PrimFloat.div 7 365);
        ("risk_free_rate", 0.03%float) ] ].

(** The loop of [simulate] over [zip(df.index[:-7], df.index[7:])], from
    position [k] on. *)
Fixpoint simulate_rows (df : list float) (k : nat) (n : nat)
    : M (list BacktestRow) :=
  match n with
  | O => mret []
  | S n' =>
      close_today ← lift (Py.index df (Z.of_nat k));
      close_next ← lift (Py.index df (Z.of_nat (k + 7)));
      let feats := _build_features close_today in
      '(preds, confs) ← batch_predict default_predictor feats;
      sig ← lift (Py.index preds 0);
      _conf ← lift (Py.index confs 0);
      ret ← lift (Py.truediv (PrimFloat.sub close_next close_today) close_today);
      rows ← simulate_rows df (S k) n';
      mret ({| row_date := k; ret_7d := ret; signal := sig |} :: rows)
  end.

(** [simulate(ticker, start, end)], the window given by its length in days. *)
Definition simulate (ticker : string) (days : Z) : M (list BacktestRow) :=
  df ← gets (fun w => close_window w ticker days);
  if (length df <? 8)%nat then
    lift (Raise (ValueError "Not enough historical data for simulation window."))
  else simulate_rows df 0 (length df - 7).

(** ** backtest.py *)

Definition is_hit (r : BacktestRow) : bool :=
  if (0 <? signal r) && Py.gt (ret_7d r) 0 then true
  else if (signal r <? 0) && Py.lt (ret_7d r) 0 then true
  else false.

(** [run_backtest(ticker, years)], with [days = int(365 * years)]. *)
Definition run_backtest (ticker : string) (days : Z)
    : M (list BacktestRow * float) :=
  result_df ← simulate ticker days;
  let hit := map is_hit result_df in
  let hit_rate := match hit with [] => 0%float | _ => bool_mean hit end in
  mret (result_df, hit_rate).

(** ** tune.py *)

Definition SEARCH_SPACE : list (string * (float * float)) :=
  [ ("ma_trend_weight", ((-1)%float, 1%float));
    ("rsi_extreme_weight", ((-1)%float, 1%float));
    ("vol_rank_weight", ((-1)%float, 1%float));
    ("momentum_3d_weight", ((-1)%float, 1%float));
    ("angle_0", (0%float, 3.14159%float));
    ("angle_1", (0%float, 3.14159%float)) ].

(** An Optuna trial: what [suggest_float] answers for each parameter, and
    the user attributes set so far. *)
Record Trial : Type := mkTrial {
  suggest_float : string -> float -> float -> float;
  user_attrs : gmap string float;
}.

Definition set_user_attr (k : string) (v : float) (t : Trial) : Trial :=
  {| suggest_float := suggest_float t; user_attrs := <[k := v]> (user_attrs t) |}.

(** The [params] dict built by the first loop of [objective], in the order
    of the search space. *)
Definition sample_params (t : Trial) : list (string * float) :=
  map (fun kr : string * (float * float) =>
         (fst kr, suggest_float t (fst kr) (fst (snd kr)) (snd (snd kr))))
      SEARCH_SPACE.

(** [objective(trial, target)]: the trial as the call leaves it, and the
    metric or the exception. The user attributes are set before the backtest
    runs, so the trial has them also when the backtest raises; the exception
    handler logs and re-raises. *)
Definition objective (trial : Trial) (target : float) (w : World)
    : (Trial * result float) * World :=
  let params := sample_params trial in
  let trial' := foldl (fun t kv => set_user_attr (fst kv) (snd kv) t) trial params in
  match run_backtest "AAPL" 91 w with
  | (Ok (_, hit_rate), w') =>
      let metric :=
        PrimFloat.sub hit_rate (PrimFloat.abs (PrimFloat.sub target hit_rate)) in
      ((trial', Ok metric), w')
  | (Raise e, w') => ((trial', Raise e), w')
  end.

(** ** The fusion of one histogram, as a function of the histogram *)

(** [p_up = ones / max(ones + zeros, 1)]. *)
Definition p_up_of (h : Histogram) : float :=
  let ones := default 0 (h !! "1") in
  let zeros := default 0 (h !! "0") in
  match Py.int_truediv ones (Z.max (ones + zeros) 1) with
  | Ok x => x
  | Raise _ => nan
  end.

(** [+1 if p_up >= 0.5 else -1] and [round(abs(p_up - 0.5) * 2, 2)]. *)
Definition fused_signal (h : Histogram) : Z :=
  if Py.ge (p_up_of h) 0.5 then 1 else -1.
Definition fused_confidence (h : Histogram) : float :=
  Py.round2 (PrimFloat.mul (PrimFloat.abs (PrimFloat.sub (p_up_of h) 0.5)) 2).

(** ** The Classical Scorer as the specification words it *)

(** The contributions to the score, in the order they are summed: the trend
    (plus or minus the trend weight), the momentum (plus or minus the momentum
    weight), the oscillator when it crosses a threshold (minus the weight at
    the high one, plus the weight at the low one) and the volatility rank when
    it crosses a threshold (likewise). *)
Definition threshold_contribution (ruleset : gmap string float)
    (value : float) (high_key low_key weight_key : string)
    : result (list float) :=
  high ← Py.getitem ruleset high_key;
  if Py.ge value high then
    weight ← Py.getitem ruleset weight_key; mret [PrimFloat.opp weight]
  else
    low ← Py.getitem ruleset low_key;
    if Py.le value low then
      weight ← Py.getitem ruleset weight_key; mret [weight]
    else mret [].

Definition spec_contributions (ruleset : gmap string float)
    (history : list float) : result (list float) :=
  latest ← Py.index history (-1);
  let average := ma history 10 in
  back4 ← Py.index history (-4);
  momentum ← Py.truediv (PrimFloat.sub latest back4) back4;
  oscillator ← rsi history 14;
  let rank := iv_rank 0.35%float
                [0.25; 0.28; 0.30; 0.27; 0.33; 0.38; 0.31]%float in
  w_trend ← Py.getitem ruleset "ma_trend_weight";
  w_momentum ← Py.getitem ruleset "momentum_3d_weight";
  osc ← threshold_contribution ruleset oscillator
          "rsi_high" "rsi_low" "rsi_extreme_weight";
  vol ← threshold_contribution ruleset rank
          "iv_rank_high" "iv_rank_low" "vol_rank_weight";
  mret ([PrimFloat.mul w_trend (sign_factor (Py.gt latest average));
         PrimFloat.mul w_momentum (sign_factor (Py.gt momentum 0))]
        ++ osc ++ vol).

Definition spec_score (ruleset : gmap string float) (history : list float)
    : result float :=
  contributions ← spec_contributions ruleset history;
  mret (foldl PrimFloat.add 0%float contributions).

(** [signal = +1 if score >= 0 else -1],
    [confidence = round(min(|score|, 1.0), 2)]. *)
Definition spec_predict (ruleset : gmap string float) (history : list float)
    : result (Z * float) :=
  score ← spec_score ruleset history;
  mret (if Py.ge score 0 then 1 else -1,
        Py.round2 (Py.min (PrimFloat.abs score) 1)).

(** ** The phases of the pipeline, as functions *)

(** The preview of a call: what [_classical_predict] returns in a world. *)
Definition preview_of (self : OptionsPredictor) (w : World) : result (Z * float) :=
  score ← classical_score (RULES w)
            (close_recent w (ticker self) (lookback_days self));
  mret (prediction_of score, confidence_of score).

(** The refinement phase for a batch whose every record is selected: one
    circuit per record, one submission, one fused result per histogram. *)
Definition refine_all (feats : list Feature) : M (list Z * list float) :=
  circuits ← lift (result_mapM build_circuit feats);
  hists ← submit circuits;
  mret (map fused_signal hists, map fused_confidence hists).

(** The dict [submit] appends for one circuit whose repetitions measured
    [ms]. *)
Definition outcome_histogram (ms : list bool) : Histogram :=
  let ones := default 0 (histogram ms !! 1) in
  <["0" := shots_per_row - ones]> (<["1" := ones]> ∅).

(** A histogram as [submit] builds it: [ones] of the 100 repetitions
    measured 1, the other [100 - ones] are counted as 0. *)
Definition submitted (h : Histogram) : Prop :=
  exists ones : Z,
    0 <= ones <= shots_per_row /\
    h = <["0" := shots_per_row - ones]> (<["1" := ones]> ∅).

(** A result in range: the signal is [+1] or [-1], the confidence lies in
    [[0, 1]] (which excludes NaN). *)
Definition valid_signal (s : Z) : Prop := s = 1 \/ s = -1.
Definition unit_interval (c : float) : Prop :=
  Py.le 0 c = true /\ Py.le c 1 = true.

(** The metric a trial reports, if it completes. *)
Definition trial_metric (r : Trial * result float) : result float := snd r.

(** ** Drivers used to state the properties *)

(** A sequence of [use_shots] calls, one after the other, on one world (so
    on one day key), each by a caller of its own: the outcome of each call,
    a raised exception included, and the world after the last. *)
Fixpoint reserve_seq (ns : list Z) (w : World) : list (result bool) * World :=
  match ns with
  | [] => ([], w)
  | n :: rest =>
      let (r, w1) := use_shots n w in
      let (rs, w2) := reserve_seq rest w1 in
      (r :: rs, w2)
  end.

(** The sum of the amounts of the calls that returned [True]. *)
Fixpoint granted_sum (ns : list Z) (rs : list (result bool)) : Z :=
  match ns, rs with
  | n :: ns', r :: rs' =>
      (match r with Ok true => n | _ => 0 end) + granted_sum ns' rs'
  | _, _ => 0
  end.

(** The transaction body run directly, once per amount, on one day key
    (what line 45 would do if the transaction were started through
    [firestore.transactional]): the answer of each run. *)
Fixpoint txn_seq (ns : list Z) (today : string) : M (list bool) :=
  match ns with
  | [] => mret []
  | n :: rest =>
      b ← txn n today;
      bs ← txn_seq rest today;
      mret (b :: bs)
  end.

End Program.

(** ** tune.py: the file [main] writes *)

(** The attributes after the second loop of [objective], as a map over the
    attributes before it. *)
Definition with_sample (trial : Trial) (attrs : gmap string float)
    : gmap string float :=
  <["angle_1" := suggest_float trial "angle_1" 0 3.14159]>
    (<["angle_0" := suggest_float trial "angle_0" 0 3.14159]>
      (<["momentum_3d_weight" := suggest_float trial "momentum_3d_weight" (-1) 1]>
        (<["vol_rank_weight" := suggest_float trial "vol_rank_weight" (-1) 1]>
          (<["rsi_extreme_weight" := suggest_float trial "rsi_extreme_weight" (-1) 1]>
            (<["ma_trend_weight" := suggest_float trial "ma_trend_weight" (-1) 1]>
              attrs))))).

(** The end of [main]: [BEST_FILE.write_text(json.dumps(best_params))] with
    the user attributes of the best trial, seen from [model.py] (the working
    directory being the directory of [model.py]). *)
Definition write_best_params (best : Trial) (files : gmap string override_text)
    : gmap string override_text :=
  <["best_params.json" := JsonObject (user_attrs best)]> files.

(** ** assessment.py and app.py *)

(** One record of [SelfAssessment.logs], also the document written to the
    Firestore collection [prediction_logs]. *)
Record LogRecord : Type := mkLog {
  log_ts : string;
  log_pred : Z;
  log_actual : Z;
  log_correct : bool;
  log_conf : float;
}.

(** The dict [SelfAssessment.evaluate] returns ([None] is [None]). *)
Record Summary : Type := mkSummary {
  total : Z;
  accuracy : option float;
  avg_confidence : option float;
}.

(** The Firestore collections written by [log_doc], each with its documents
    in the order they were added. *)
Abbreviation Collections := (gmap string (list LogRecord)).

(** [log_doc(collection, data)]: one more document in the collection. *)
Definition log_doc (collection : string) (data : LogRecord) (db : Collections)
    : Collections :=
  <[collection := default [] (db !! collection) ++ [data]]> db.

Section Serving.

Context `{External}.

(** [round(x, 3)] on the NumPy scalar a pandas mean returns. *)
Variable np_round3 : float -> float.

(** The process that serves [app.py]: the world of the pipeline, the
    [logs] of the module's [evaluator] and the Firestore collections. *)
Record Server : Type := mkServer {
  srv_world : World;
  evaluator_logs : list LogRecord;
  srv_db : Collections;
}.

(** [SelfAssessment.log(features, pred, actual, conf)], where [now] is what
    [datetime.now(timezone.utc).isoformat()] answers during the call. *)
Definition assessment_log (now : string) (features : Feature)
    (pred actual : Z) (conf : float) (s : Server) : Server :=
  let rec := {| log_ts := now; log_pred := pred; log_actual := actual;
                log_correct := (pred =? actual); log_conf := conf |} in
  {| srv_world := srv_world s;
     evaluator_logs := evaluator_logs s ++ [rec];
     srv_db := log_doc "prediction_logs" rec (srv_db s) |}.

(** [SelfAssessment.evaluate()]. *)
Definition assessment_evaluate (logs : list LogRecord) : Summary :=
  match logs with
  | [] => {| total := 0; accuracy := None; avg_confidence := None |}
  | _ =>
      {| total := Z.of_nat (length logs);
         accuracy := Some (np_round3 (bool_mean (map log_correct logs)));
         avg_confidence := Some (np_round3 (series_mean (map log_conf logs))) |}
  end.

(** The handler of [POST /predict], given the parsed JSON body. *)
Definition app_predict (body : gmap string (list Feature)) (s : Server)
    : result (list Z * list float) * Server :=
  match Py.getitem body "features" with
  | Raise e => (Raise e, s)
  | Ok feats =>
      let (r, w') := batch_predict default_predictor feats (srv_world s) in
      (r, {| srv_world := w';
             evaluator_logs := evaluator_logs s; srv_db := srv_db s |})
  end.

(** The handler of [GET /evaluate]. *)
Definition app_evaluate (s : Server) : result Summary * Server :=
  (Ok (assessment_evaluate (evaluator_logs s)), s).

Inductive request : Type :=
  | PostPredict (body : gmap string (list Feature))
  | GetEvaluate.

Inductive response : Type :=
  | Predictions (preds : list Z) (confs : list float)
  | Evaluation (summary : Summary)
  | InternalError (e : exn).

(** One request: the handler of its route; an exception that leaves the
    handler is the response. *)
Definition handle (rq : request) (s : Server) : response * Server :=
  match rq with
  | PostPredict body =>
      match app_predict body s with
      | (Ok (preds, confs), s') => (Predictions preds confs, s')
      | (Raise e, s') => (InternalError e, s')
      end
  | GetEvaluate =>
      match app_evaluate s with
      | (Ok summary, s') => (Evaluation summary, s')
      | (Raise e, s') => (InternalError e, s')
      end
  end.

(** Requests served one after the other. *)
Fixpoint serve (rqs : list request) (s : Server) : list response * Server :=
  match rqs with
  | [] => ([], s)
  | rq :: rest =>
      let (r, s1) := handle rq s in
      let (rs, s2) := serve rest s1 in
      (r :: rs, s2)
  end.

(** Calls of [evaluator.log], one after the other, each with the time of
    the call and its four arguments. *)
Fixpoint log_all (entries : list (string * Feature * Z * Z * float))
    (s : Server) : Server :=
  match entries with
  | [] => s
  | (now, features, pred, actual, conf) :: rest =>
      log_all rest (assessment_log now features pred actual conf s)
  end.

End Serving.

(** What a response owes to its request: a prediction per submitted record,
    each signal [+1] or [-1]; a [KeyError] when the body has no ["features"];
    an evaluation for [GET /evaluate]. *)
Definition answers (rq : request) (r : response) : Prop :=
  match rq, r with
  | PostPredict body, Predictions preds confs =>
      exists feats : list Feature,
        body !! "features" = Some feats /\
        length preds = length feats /\ length confs = length feats /\
        Forall valid_signal preds
  | PostPredict body, InternalError e =>
      body !! "features" = None -> e = KeyError "features"
  | GetEvaluate, Evaluation _ => True
  | _, _ => False
  end.

(** A record is priced when it has both prices and the strike is not zero. *)
Definition priced (f : Feature) : Prop :=
  exists spot strike : float,
    f !! "spot_price" = Some spot /\ f !! "strike_price" = Some strike /\
    Py.eq strike 0 = false.

(* ================================================================== *)
(** * 3. Concrete collaborators and worlds *)
(* ================================================================== *)

(** A [Series.mean()]: NaN entries skipped, the rest summed left to right and
    divided by their number; NaN for an empty series. *)
Definition mean_sequential (s : list float) : float :=
  let xs := dropna s in
  match xs with
  | [] => nan
  | _ => PrimFloat.div (foldl PrimFloat.add 0%float xs) (Py.of_int (Z.of_nat (length xs)))
  end.

Definition tag_const (f : Feature) : string := "d41d8cd9".

(** A simulator whose random source is the number of repetitions run so far:
    every third repetition measures 0, the others 1. *)
Definition sim_mod3 : External :=
  {| Rng := nat;
     measure := fun _ n => (Ok (negb (n mod 3 =? 0)%nat), S n);
     series_mean := mean_sequential;
     md5_tag := tag_const |}.

(** A backend that is down: every repetition faults. *)
Definition sim_down : External :=
  {| Rng := nat;
     measure := fun _ n => (Raise (BackendFault 503), n);
     series_mean := mean_sequential;
     md5_tag := tag_const |}.

(** Twenty closes that end in a drop after a rally: below the 10-day average,
    negative 3-day momentum, RSI above 70. *)
Definition closes_drop : list float :=
  replicate 6 10%float ++ replicate 13 110%float ++ [100%float].

(** Twenty closes that rise by one every day. *)
Definition closes_rise : list float :=
  map (fun k => Py.of_int (Z.of_nat k)) (seq 100 20).

Definition world_of {E : External} (rules : gmap string float)
    (doc : option (gmap string Z)) (closes : list float) (r : Rng) : World :=
  {| RULES := rules; counter_doc := doc; utc_today := "2025-06-01";
     close_recent := fun _ _ => closes; close_window := fun _ _ => closes;
     rng := r |}.

Definition feats3 : list Feature :=
  [ {[ "spot_price" := 100%float; "strike_price" := 105%float ]} ;
    {[ "spot_price" := 100%float; "strike_price" := 100%float ]} ;
    {[ "spot_price" := 100%float; "strike_price" := 80%float ]} ].

(** Five identical records. *)
Definition feats5 : list Feature :=
  replicate 5 {[ "spot_price" := 100%float; "strike_price" := 105%float ]}.

(** Twenty closes that go up by two and down by one in turn: above the 10-day
    average, positive 3-day momentum, RSI between the thresholds. *)
Definition closes_zigzag : list float :=
  map (fun k : nat =>
         Py.of_int (100 + Z.of_nat k / 2 + (if Nat.odd k then 2 else 0)))
      (seq 0 20).

(** [RULES] after the import of [model.py] next to the given files (the
    defaults if the import fails). *)
Definition rules_from (files : gmap string override_text) : gmap string float :=
  match load_rules files with Ok rules => rules | Raise _ => DEFAULT_RULES end.

(** Preview confidence 0.42: a [rules.json] with a trend weight of 0.52. *)
Definition world_calm : @World sim_mod3 :=
  world_of (E:=sim_mod3) (rules_from {[ "rules.json" := JsonObject {[ "ma_trend_weight" := 0.52%float ]} ]})
           None closes_zigzag 0%nat.

(** Preview confidence 0.9 (an oscillator weight of 0.2), with 2250 shots
    used today: 250 are left. *)
Definition world_tight : @World sim_mod3 :=
  world_of (E:=sim_mod3) (rules_from {[ "rules.json" := JsonObject {[ "rsi_extreme_weight" := 0.2%float ]} ]})
           (Some {[ "2025-06-01" := 2250 ]}) closes_drop 0%nat.

(** The same with 1500 shots used today: 1000 are left. *)
Definition world_roomy : @World sim_mod3 :=
  world_of (E:=sim_mod3) (rules_from {[ "rules.json" := JsonObject {[ "rsi_extreme_weight" := 0.2%float ]} ]})
           (Some {[ "2025-06-01" := 1500 ]}) closes_drop 0%nat.

(** The default rules, a fresh day, and a backend that is down. *)
Definition world_down : @World sim_down :=
  world_of (E:=sim_down) DEFAULT_RULES None closes_drop 0%nat.

(** A [rules.json] whose trend weight is the JSON literal [NaN]. *)
Definition world_nan : @World sim_mod3 :=
  world_of (E:=sim_mod3) (rules_from {[ "rules.json" := JsonObject {[ "ma_trend_weight" := nan ]} ]})
           None closes_drop 0%nat.

(** A malformed [best_params.json] in front of a well-formed [rules.json]. *)
Definition files_malformed : gmap string override_text :=
  {[ "best_params.json" := NotJson;
     "rules.json" := JsonObject {[ "ma_trend_weight" := 0.52%float ]} ]}.

(** A trial that samples a trend weight of -0.5 and 0 for the rest. *)
Definition trial_bear : Trial :=
  {| suggest_float := fun k lo hi =>
       if String.eqb k "ma_trend_weight" then (-0.5)%float else 0%float;
     user_attrs := ∅ |}.

(** A rising market, default rules. *)
Definition world_rise : @World sim_mod3 :=
  world_of (E:=sim_mod3) DEFAULT_RULES None closes_rise 0%nat.

(** The same world with the sample of [trial_bear] merged into [RULES]. *)
Definition world_rise_bear : @World sim_mod3 :=
  world_of (E:=sim_mod3) (list_to_map (sample_params trial_bear) ∪ DEFAULT_RULES)
           None closes_rise 0%nat.

(** Five closes: enough for the momentum, too few for a 14-day RSI. *)
Definition closes_short : list float :=
  [100; 101; 102; 103; 104]%float.

(** Rounding to three decimals that leaves its argument as it is. *)
Definition round3_id (x : float) : float := x.

(** Two logged predictions, both right. *)
Definition logs_right : list LogRecord :=
  [ {| log_ts := "2025-06-01T00:00:00+00:00"; log_pred := 1; log_actual := 1;
       log_correct := true; log_conf := 0.9%float |} ;
    {| log_ts := "2025-06-01T00:00:01+00:00"; log_pred := -1; log_actual := -1;
       log_correct := true; log_conf := 0.5%float |} ].

(** A market with five closes of history, default rules. *)
Definition world_short : @World sim_mod3 :=
  world_of (E:=sim_mod3) DEFAULT_RULES None closes_short 0%nat.

(* ================================================================== *)
(** * 4. Properties *)
(* ================================================================== *)

Section QuotaProperties.

Context `{External}.

Lemma used_today_set_counter (w : World) (data : gmap string Z) (v : Z) :
  used_today (set_counter_doc (Some (<[utc_today w := v]> data)) w) = v.
Proof.
  unfold used_today; simpl. by rewrite lookup_insert_eq.
Qed.

(** *** The transaction body, which [use_shots] never runs *)

Lemma txn_denied (n : Z) (w : World) :
  _DAILY_BUDGET < used_today w + n -> txn n (utc_today w) w = (Ok false, w).
Proof.
  intros Hover. unfold txn. fold (used_today w).
  destruct (Z.gtb_spec (used_today w + n) _DAILY_BUDGET); [done | lia].
Qed.

Lemma txn_granted (n : Z) (w : World) :
  used_today w + n <= _DAILY_BUDGET ->
  txn n (utc_today w) w =
    (Ok true,
     set_counter_doc
       (Some (<[utc_today w := used_today w + n]> (default ∅ (counter_doc w)))) w).
Proof.
  intros Hfit. unfold txn. fold (used_today w).
  destruct (Z.gtb_spec (used_today w + n) _DAILY_BUDGET); [lia | done].
Qed.

(** Run on today's key, the transaction body is the all-or-nothing
    reservation the docstring of [use_shots] describes. *)
Lemma txn_all_or_nothing (n : Z) (w : World) :
  (2500 < used_today w + n -> txn n (utc_today w) w = (Ok false, w)) /\
  (used_today w + n <= 2500 ->
     fst (txn n (utc_today w) w) = Ok true /\
     used_today (snd (txn n (utc_today w) w)) = used_today w + n /\
     utc_today (snd (txn n (utc_today w) w)) = utc_today w /\
     forall day : string, day <> utc_today w ->
       default ∅ (counter_doc (snd (txn n (utc_today w) w))) !! day
       = default ∅ (counter_doc w) !! day).
Proof.
  split.
  - apply txn_denied.
  - intros Hfit. rewrite txn_granted by exact Hfit. simpl.
    repeat split.
    + apply used_today_set_counter.
    + intros day Hday. by rewrite lookup_insert_ne.
Qed.

(** The counter after a sequence of runs of the transaction body is the
    counter before plus what was granted, and stays within the budget. *)
Lemma txn_seq_accounting (ns : list Z) (w : World) :
  exists bs w',
    txn_seq ns (utc_today w) w = (Ok bs, w') /\
    length bs = length ns /\
    utc_today w' = utc_today w /\
    used_today w' =
      used_today w + granted_sum ns (map (fun b : bool => Ok b) bs) /\
    (used_today w <= _DAILY_BUDGET -> used_today w' <= _DAILY_BUDGET).
Proof.
  revert w. induction ns as [|n ns IH]; intros w.
  - exists [], w. simpl. repeat split; lia.
  - simpl. unfold mbind, M_bind at 1.
    destruct (Z_lt_le_dec _DAILY_BUDGET (used_today w + n)) as [Hover|Hfit].
    + rewrite txn_denied by exact Hover.
      destruct (IH w) as (bs & w' & Hrun & Hlen & Hday & Hsum & Hinv).
      unfold mbind, M_bind. rewrite Hrun. simpl.
      exists (false :: bs), w'. simpl. repeat split; auto; lia.
    + rewrite txn_granted by exact Hfit.
      set (w1 := set_counter_doc _ w).
      assert (Hu1 : used_today w1 = used_today w + n)
        by apply used_today_set_counter.
      destruct (IH w1) as (bs & w' & Hrun & Hlen & Hday & Hsum & Hinv).
      change (utc_today w) with (utc_today w1).
      unfold mbind, M_bind. rewrite Hrun. simpl.
      exists (true :: bs), w'. simpl. repeat split; auto; lia.
Qed.

(** *** [use_shots] as it is called *)

Lemma use_shots_raises (n : Z) (w : World) :
  use_shots n w = (Raise not_callable, w).
Proof. reflexivity. Qed.

Lemma reserve_seq_raises (ns : list Z) (w : World) :
  reserve_seq ns w = (map (fun _ => Raise not_callable) ns, w).
Proof.
  induction ns as [|n ns IH]; [reflexivity|].
  cbn [reserve_seq map]. rewrite use_shots_raises, IH. reflexivity.
Qed.

Lemma granted_sum_raises (ns : list Z) (e : exn) :
  granted_sum ns (map (fun _ => Raise e) ns) = 0.
Proof. induction ns as [|n ns IH]; [reflexivity|]. simpl. exact IH. Qed.

(** C1 on the code. Line 45 calls a [Transaction] object, so every call of
    [use_shots] raises [TypeError] before the transaction body runs: the call
    returns neither [True] nor [False], whatever the amount and the usage,
    and the counter is left as it was. *)
Theorem use_shots_never_returns (n : Z) (w : World) :
  use_shots n w
  = (Raise (TypeError "'Transaction' object is not callable"), w) /\
  (forall b : bool, fst (use_shots n w) <> Ok b) /\
  used_today (snd (use_shots n w)) = used_today w.
Proof.
  rewrite use_shots_raises. repeat split. intros b. discriminate.
Qed.

(** C2. For every sequence of [use_shots] calls on one day key that starts
    from zero usage, each call has one outcome, and the sum of the amounts of
    the calls that returned [True] is the day's usage afterwards and never
    exceeds the budget of 2500. *)
Theorem granted_sum_within_budget (ns : list Z) (w : World) :
  used_today w = 0 ->
  let outcomes := fst (reserve_seq ns w) in
  let w' := snd (reserve_seq ns w) in
  length outcomes = length ns /\
  granted_sum ns outcomes = used_today w' /\
  granted_sum ns outcomes <= 2500.
Proof.
  intros Hzero. cbv zeta. rewrite reserve_seq_raises. cbn [fst snd].
  rewrite length_map, granted_sum_raises, Hzero. repeat split; lia.
Qed.

End QuotaProperties.

Section PipelineLemmas.

Context `{External}.

(** *** The monad *)

Lemma bind_ok {A B} (m : M A) (f : A -> M B) (w w' : World) (a : A) :
  m w = (Ok a, w') -> (m ≫= f) w = f a w'.
Proof. intros Hm. unfold mbind, M_bind. by rewrite Hm. Qed.

Lemma bind_raise {A B} (m : M A) (f : A -> M B) (w w' : World) (e : exn) :
  m w = (Raise e, w') -> (m ≫= f) w = (Raise e, w').
Proof. intros Hm. unfold mbind, M_bind. by rewrite Hm. Qed.

Lemma bind_ext {A B} (m : M A) (f g : A -> M B) (w : World) :
  (forall a w', f a w' = g a w') -> (m ≫= f) w = (m ≫= g) w.
Proof.
  intros Hfg. unfold mbind, M_bind. destruct (m w) as [[a|e] w']; auto.
Qed.

(** *** Python lists *)

Lemma index_nat {A} (l : list A) (j : nat) :
  Py.index l (Z.of_nat j)
  = match l !! j with Some a => Ok a | None => Raise IndexError end.
Proof.
  unfold Py.index.
  destruct (Z.ltb_spec (Z.of_nat j) 0) as [?|_]; [lia|].
  destruct (Z.leb_spec 0 (Z.of_nat j)) as [_|?]; [|lia].
  rewrite Nat2Z.id. simpl.
  destruct (Z.ltb_spec (Z.of_nat j) (Z.of_nat (length l))) as [Hlt|Hge].
  - reflexivity.
  - rewrite lookup_ge_None_2 by lia. reflexivity.
Qed.

Lemma zip_diag {A} (l : list A) : zip l l = map (fun a => (a, a)) l.
Proof. induction l as [|a l IH]; simpl; [done | by rewrite IH]. Qed.

Lemma enumerate_seq (n : nat) :
  Py.enumerate (seq 0 n) = map (fun i => (i, i)) (seq 0 n).
Proof. unfold Py.enumerate. rewrite length_seq. apply zip_diag. Qed.

(** *** Selection: one preview for all, so all or none *)

Lemma select_zip_replicate (c : float) (l : list nat) :
  map fst (filter (fun ic : nat * float => Py.ge (snd ic) QPU_THRESHOLD = true)
                  (zip l (replicate (length l) c)))
  = if Py.ge c QPU_THRESHOLD then l else [].
Proof.
  induction l as [|i l IH]; simpl.
  - by destruct (Py.ge c QPU_THRESHOLD).
  - rewrite filter_cons. simpl. destruct (Py.ge c QPU_THRESHOLD) eqn:Hc.
    + rewrite decide_True by done. simpl. by rewrite IH.
    + rewrite decide_False by done. exact IH.
Qed.

Lemma select_qpu_replicate (n : nat) (c : float) :
  select_qpu (replicate n c) = if Py.ge c QPU_THRESHOLD then seq 0 n else [].
Proof.
  unfold select_qpu, Py.enumerate. rewrite length_replicate.
  pose proof (select_zip_replicate c (seq 0 n)) as Hsel.
  rewrite length_seq in Hsel. exact Hsel.
Qed.

(** *** Building the circuits of all records *)

Lemma mapM_index_seq {B} (g : Feature -> result B) (pre rest : list Feature) :
  result_mapM (fun i : nat => f ← Py.index (pre ++ rest) (Z.of_nat i); g f)
              (seq (length pre) (length rest))
  = result_mapM g rest.
Proof.
  revert pre. induction rest as [|f rest IH]; intros pre; simpl; [done|].
  rewrite index_nat. rewrite lookup_app_r by lia.
  rewrite Nat.sub_diag. simpl.
  destruct (g f) as [y|e]; [|done].
  specialize (IH (pre ++ [f])). rewrite length_app in IH. simpl in IH.
  rewrite Nat.add_1_r in IH. rewrite <- app_assoc in IH. simpl in IH.
  by rewrite IH.
Qed.

(** *** Fusion *)

Lemma int_truediv_pos (a b : Z) :
  1 <= b -> exists x, Py.int_truediv a b = Ok x.
Proof.
  intros Hb. unfold Py.int_truediv.
  destruct b as [|q|q]; [lia| |lia].
  destruct (Z.abs a); simpl; eauto.
Qed.

Lemma p_up_of_eq (h : Histogram) :
  Py.int_truediv (default 0 (h !! "1"))
                 (Z.max (default 0 (h !! "1") + default 0 (h !! "0")) 1)
  = Ok (p_up_of h).
Proof.
  unfold p_up_of.
  destruct (int_truediv_pos (default 0 (h !! "1"))
              (Z.max (default 0 (h !! "1") + default 0 (h !! "0")) 1)) as [x Hx];
    [lia|].
  by rewrite Hx.
Qed.

Lemma fuse_one_ok (hists : list Histogram) (h : Histogram)
    (preds : list Z) (confs : list float) (j i : nat) :
  hists !! j = Some h ->
  (i < length preds)%nat -> (i < length confs)%nat ->
  fuse_one hists (preds, confs) (j, i)
  = Ok (<[i := fused_signal h]> preds, <[i := fused_confidence h]> confs).
Proof.
  intros Hj Hp Hc. unfold fuse_one.
  rewrite index_nat, Hj. simpl. rewrite p_up_of_eq. simpl.
  unfold Py.setitem.
  destruct (Nat.ltb_spec i (length preds)) as [_|?]; [|lia].
  destruct (Nat.ltb_spec i (length confs)) as [_|?]; [|lia].
  reflexivity.
Qed.

(** The loop over [enumerate(idx_qpu)] when every index is selected: from
    position [k] on, with the first [k] records already overwritten. *)
Lemma fuse_from (m : nat) :
  forall (k : nat) (hists : list Histogram) (dp : list Z) (dc : list float)
         (p : Z) (c : float),
    length dp = k -> length dc = k -> length hists = (k + m)%nat ->
    fuse hists (dp ++ replicate m p, dc ++ replicate m c)
         (map (fun i => (i, i)) (seq k m))
    = Ok (dp ++ map fused_signal (drop k hists),
          dc ++ map fused_confidence (drop k hists)).
Proof.
  induction m as [|m IH]; intros k hists dp dc p c Hdp Hdc Hh.
  - simpl. rewrite drop_ge by lia. reflexivity.
  - cbn [seq map fuse replicate].
    destruct (lookup_lt_is_Some_2 hists k) as [h Hk]; [lia|].
    rewrite (fuse_one_ok hists h _ _ k k Hk);
      [| rewrite length_app; simpl; lia | rewrite length_app; simpl; lia].
    rewrite <- Hdp at 1. rewrite <- Hdc at 1.
    rewrite !insert_app_r_alt by lia. rewrite !Nat.sub_diag. simpl.
    rewrite (cons_middle (fused_signal h)), (cons_middle (fused_confidence h)).
    rewrite !app_assoc.
    rewrite (IH (S k) hists (dp ++ [fused_signal h]) (dc ++ [fused_confidence h]))
      by (rewrite ?length_app; simpl; lia).
    rewrite (drop_S hists h k Hk). simpl.
    rewrite <- !app_assoc. reflexivity.
Qed.

Lemma fuse_all (hists : list Histogram) (p : Z) (c : float) :
  fuse hists (replicate (length hists) p, replicate (length hists) c)
       (Py.enumerate (seq 0 (length hists)))
  = Ok (map fused_signal hists, map fused_confidence hists).
Proof.
  rewrite enumerate_seq.
  exact (fuse_from (length hists) 0 hists [] [] p c eq_refl eq_refl eq_refl).
Qed.

(** *** The simulated backend *)

Lemma simulator_run_length (c : Circuit) (n : nat) (w w' : World) (ms : list bool) :
  simulator_run c n w = (Ok ms, w') -> length ms = n.
Proof.
  revert w w' ms. induction n as [|n IH]; intros w w' ms; simpl.
  - intros [= <- _]. reflexivity.
  - unfold mbind, M_bind.
    destruct (measure c (rng w)) as [[b|e] g]; [|discriminate].
    destruct (simulator_run c n (set_rng g w)) as [[bs|e] w1] eqn:Hrun; [|discriminate].
    intros [= <- _]. simpl. f_equal. eauto.
Qed.

Lemma histogram_ones (ms : list bool) :
  0 <= default 0 (histogram ms !! 1) <= Z.of_nat (length ms).
Proof.
  assert (Hboth : 0 <= default 0 (histogram ms !! 1) <= Z.of_nat (length ms) /\
                  0 <= default 0 (histogram ms !! 0)).
  { induction ms as [|b ms [IH1 IH0]]; simpl.
    - rewrite !lookup_empty. simpl. lia.
    - destruct b.
      + rewrite lookup_insert_eq, lookup_insert_ne by done. simpl. lia.
      + rewrite lookup_insert_ne, lookup_insert_eq by done. simpl. lia. }
  tauto.
Qed.

Lemma submit_spec (cs : list Circuit) :
  forall (w w' : World) (hists : list Histogram),
    submit cs w = (Ok hists, w') ->
    length hists = length cs /\ Forall submitted hists.
Proof.
  induction cs as [|c cs IH]; intros w w' hists; cbn [submit].
  - unfold mret, M_ret. intros Heq. inversion Heq; subst.
    split; [reflexivity | constructor].
  - unfold mbind, M_bind, mret, M_ret.
    destruct (simulator_run c (Z.to_nat shots_per_row) w) as [[ms|e] w1] eqn:Hrun;
      [|discriminate].
    destruct (submit cs w1) as [[hs|e] w2] eqn:Hsub; [|discriminate].
    intros Heq. inversion Heq; subst.
    destruct (IH _ _ _ Hsub) as [Hlen Hall].
    split; [simpl; by rewrite Hlen|].
    constructor; [|exact Hall].
    exists (default 0 (histogram ms !! 1)). split; [|reflexivity].
    pose proof (histogram_ones ms) as Hones.
    rewrite (simulator_run_length _ _ _ _ _ Hrun) in Hones.
    unfold shots_per_row in *. lia.
Qed.

Lemma world_eta (w : World) : set_rng (rng w) w = w.
Proof. by destruct w. Qed.

Lemma simulator_run_frame (c : Circuit) (n : nat) :
  forall (w w' : World) (r : result (list bool)),
    simulator_run c n w = (r, w') -> w' = set_rng (rng w') w.
Proof.
  induction n as [|n IH]; intros w w' r; cbn [simulator_run].
  - unfold mret, M_ret. intros Heq. inversion Heq; subst. by rewrite world_eta.
  - unfold mbind, M_bind, mret, M_ret.
    destruct (measure c (rng w)) as [[b|e] g].
    + destruct (simulator_run c n (set_rng g w)) as [[bs|e] w1] eqn:Hrun;
        intros Heq; inversion Heq; subst; apply (IH _ _ _ Hrun).
    + intros Heq. inversion Heq; subst. reflexivity.
Qed.

(** The backend only advances the random source: the rules, the quota
    counter, the day and the market are as before. *)
Lemma submit_frame (cs : list Circuit) :
  forall (w w' : World) (r : result (list Histogram)),
    submit cs w = (r, w') -> w' = set_rng (rng w') w.
Proof.
  induction cs as [|c cs IH]; intros w w' r; cbn [submit].
  - unfold mret, M_ret. intros Heq. inversion Heq; subst. by rewrite world_eta.
  - unfold mbind, M_bind, mret, M_ret.
    destruct (simulator_run c (Z.to_nat shots_per_row) w) as [[ms|e] w1] eqn:Hrun.
    + pose proof (simulator_run_frame _ _ _ _ _ Hrun) as Hw1.
      destruct (submit cs w1) as [[hs|e] w2] eqn:Hsub;
        intros Heq; inversion Heq; subst;
        rewrite (IH _ _ _ Hsub), Hw1; reflexivity.
    + intros Heq. inversion Heq; subst.
      apply (simulator_run_frame _ _ _ _ _ Hrun).
Qed.


(** [submit] is order-preserving: the [i]-th histogram counts a run of the
    [i]-th circuit. *)
Lemma submit_lookup (cs : list Circuit) :
  forall (w w' : World) (hists : list Histogram),
    submit cs w = (Ok hists, w') ->
    forall (i : nat) (c : Circuit), cs !! i = Some c ->
      exists (ms : list bool) (wi wi' : World),
        simulator_run c (Z.to_nat shots_per_row) wi = (Ok ms, wi') /\
        hists !! i = Some (outcome_histogram ms).
Proof.
  induction cs as [|c0 cs IH]; intros w w' hists; cbn [submit].
  - intros _ i c Hi. by rewrite lookup_nil in Hi.
  - unfold mbind, M_bind, mret, M_ret.
    destruct (simulator_run c0 (Z.to_nat shots_per_row) w) as [[ms|e] w1] eqn:Hrun;
      [|discriminate].
    destruct (submit cs w1) as [[hs|e] w2] eqn:Hsub; [|discriminate].
    intros Heq. inversion Heq; subst. intros [|i] c Hi.
    + simpl in Hi. inversion Hi; subst. exists ms, w, w1. by split.
    + simpl in Hi. destruct (IH _ _ _ Hsub i c Hi) as (ms' & wi & wi' & Hr & Hl).
      exists ms', wi, wi'. by split.
Qed.

Lemma result_mapM_lookup {A B} (g : A -> result B) (l : list A) (ys : list B) :
  result_mapM g l = Ok ys ->
  forall (i : nat) (a : A), l !! i = Some a ->
    exists y, g a = Ok y /\ ys !! i = Some y.
Proof.
  revert ys. induction l as [|a0 l IH]; intros ys; simpl.
  - intros _ i a Hi. by rewrite lookup_nil in Hi.
  - destruct (g a0) as [y0|e] eqn:Hg; [|discriminate].
    destruct (result_mapM g l) as [ys'|e]; [|discriminate].
    intros [= <-] [|i] a Hi; simpl in Hi.
    + inversion Hi; subst. by exists y0.
    + destruct (IH ys' eq_refl i a Hi) as (y & Hy & Hl). by exists y.
Qed.

(** *** The preview *)

Lemma classical_predict_pure (self : OptionsPredictor) (w : World) :
  _classical_predict self w = (preview_of self w, w).
Proof.
  unfold _classical_predict, preview_of, fetch_last_n, gets, lift.
  unfold mbind, M_bind, result_bind, mret, M_ret, result_ret.
  by destruct (classical_score _ _).
Qed.

(** *** The three ways through [batch_predict] *)

Lemma result_mapM_length {A B} (g : A -> result B) (l : list A) (ys : list B) :
  result_mapM g l = Ok ys -> length ys = length l.
Proof.
  revert ys. induction l as [|a l IH]; intros ys; simpl.
  - by intros [= <-].
  - destruct (g a) as [y|e]; [|discriminate].
    destruct (result_mapM g l) as [ys'|e]; [|discriminate].
    intros [= <-]. simpl. f_equal. by apply IH.
Qed.

Lemma batch_predict_preview_fails (self : OptionsPredictor)
    (feats : list Feature) (w : World) (e : exn) :
  preview_of self w = Raise e ->
  batch_predict self feats w = (Raise e, w).
Proof.
  intros Hprev. unfold batch_predict.
  apply bind_raise. by rewrite classical_predict_pure, Hprev.
Qed.

Lemma batch_predict_unrefined (self : OptionsPredictor)
    (feats : list Feature) (w : World) (pred : Z) (conf : float) :
  preview_of self w = Ok (pred, conf) ->
  feats = [] \/ Py.ge conf QPU_THRESHOLD = false ->
  batch_predict self feats w
  = (Ok (replicate (length feats) pred, replicate (length feats) conf), w).
Proof.
  intros Hprev Hnone. unfold batch_predict.
  erewrite bind_ok by (rewrite classical_predict_pure, Hprev; reflexivity).
  cbv beta iota. rewrite select_qpu_replicate.
  assert (Hsel : (if Py.ge conf QPU_THRESHOLD then seq 0 (length feats) else [])
                 = []).
  { destruct Hnone as [-> | ->]; [by destruct (Py.ge _ _) | done]. }
  rewrite Hsel. reflexivity.
Qed.

Lemma batch_predict_selected (self : OptionsPredictor)
    (feats : list Feature) (w : World) (pred : Z) (conf : float) :
  preview_of self w = Ok (pred, conf) ->
  feats <> [] -> Py.ge conf QPU_THRESHOLD = true ->
  batch_predict self feats w
  = (go ← use_shots (Z.of_nat (length feats) * SHOTS_PER_FEAT);
     if (go : bool) then refine_all feats
     else mret (replicate (length feats) pred, replicate (length feats) conf)) w.
Proof.
  intros Hprev Hne Hge. unfold batch_predict.
  erewrite bind_ok by (rewrite classical_predict_pure, Hprev; reflexivity).
  cbv beta iota. rewrite select_qpu_replicate, Hge, length_seq.
  assert (Hm : forall a b : M bool,
             match seq 0 (length feats) with [] => a | _ :: _ => b end = b)
    by (destruct feats; [done | reflexivity]).
  rewrite Hm. clear Hm. set (n := length feats).
  apply bind_ext. intros [|] w2; [|reflexivity].
  pose proof (mapM_index_seq build_circuit [] feats) as Hbuild.
  cbn [app length] in Hbuild. fold n in Hbuild.
  unfold refine_all. rewrite Hbuild. unfold lift, mbind, M_bind.
  destruct (result_mapM build_circuit feats) as [cs|e] eqn:Hcs; [|reflexivity].
  destruct (submit cs w2) as [[hists|e] w3] eqn:Hsub; [|reflexivity].
  destruct (submit_spec _ _ _ _ Hsub) as [Hlen _].
  apply result_mapM_length in Hcs.
  assert (Hn : n = length hists) by (unfold n; lia).
  rewrite Hn, fuse_all. reflexivity.
Qed.

End PipelineLemmas.

Section PipelineProperties.

Context `{External}.

Lemma Forall_replicate_inv {A} (P : A -> Prop) (n : nat) (a : A) :
  Forall P (replicate n a) -> n = 0%nat \/ P a.
Proof.
  destruct n as [|n]; [by left|]. simpl. intros HP. right.
  by inversion HP.
Qed.

Lemma refine_all_ok (feats : list Feature) (w w' : World)
    (preds : list Z) (confs : list float) :
  refine_all feats w = (Ok (preds, confs), w') ->
  exists circuits hists,
    result_mapM build_circuit feats = Ok circuits /\
    submit circuits w = (Ok hists, w') /\
    preds = map fused_signal hists /\
    confs = map fused_confidence hists.
Proof.
  unfold refine_all, lift, mbind, M_bind, mret, M_ret.
  destruct (result_mapM build_circuit feats) as [cs|e]; [|discriminate].
  destruct (submit cs w) as [[hists|e] w3] eqn:Hsub; [|discriminate].
  intros Heq. inversion Heq; subst. by exists cs, hists.
Qed.

Lemma refine_all_raise (feats : list Feature) (w w' : World) (e : exn) :
  refine_all feats w = (Raise e, w') ->
  result_mapM build_circuit feats = Raise e \/
  exists circuits, result_mapM build_circuit feats = Ok circuits /\
                   submit circuits w = (Raise e, w').
Proof.
  unfold refine_all, lift, mbind, M_bind, mret, M_ret.
  destruct (result_mapM build_circuit feats) as [cs|e0].
  - destruct (submit cs w) as [[hists|e0] w3] eqn:Hsub; [discriminate|].
    intros Heq. inversion Heq; subst. right. by exists cs.
  - intros Heq. inversion Heq; subst. by left.
Qed.

(** The outcome of [batch_predict] in every world: the preview fails; or
    nothing is selected, the preview of every record is returned and the
    world is untouched; or the batch is selected and the reservation
    raises. *)
Lemma batch_predict_cases (self : OptionsPredictor) (feats : list Feature)
    (w : World) :
  let n := length feats in
  (exists e, preview_of self w = Raise e /\
             batch_predict self feats w = (Raise e, w)) \/
  (exists pred conf,
      preview_of self w = Ok (pred, conf) /\
      (feats = [] \/ Py.ge conf QPU_THRESHOLD = false) /\
      batch_predict self feats w = (Ok (replicate n pred, replicate n conf), w)) \/
  (exists pred conf,
      preview_of self w = Ok (pred, conf) /\
      feats <> [] /\ Py.ge conf QPU_THRESHOLD = true /\
      batch_predict self feats w = (Raise not_callable, w)).
Proof.
  intros n.
  destruct (preview_of self w) as [[pred conf]|e] eqn:Hprev.
  2:{ left. exists e. split; [done|]. by apply batch_predict_preview_fails. }
  right.
  destruct (decide (feats = [])) as [Hnil|Hne].
  { left. exists pred, conf. split; [done|]. split; [by left|].
    apply batch_predict_unrefined; auto. }
  destruct (Py.ge conf QPU_THRESHOLD) eqn:Hge.
  2:{ left. exists pred, conf. split; [done|]. split; [by right|].
      apply batch_predict_unrefined; auto. }
  right. exists pred, conf. repeat (split; [done|]).
  rewrite (batch_predict_selected self feats w pred conf Hprev Hne Hge).
  apply bind_raise, use_shots_raises.
Qed.

(** [batch_predict] leaves the world as it found it: the preview only reads,
    and the reservation raises before anything is written. *)
Lemma batch_predict_world (self : OptionsPredictor) (feats : list Feature)
    (w : World) :
  snd (batch_predict self feats w) = w.
Proof.
  by destruct (batch_predict_cases self feats w)
    as [(e & _ & ->) | [(p & c & _ & _ & ->) | (p & c & _ & _ & _ & ->)]].
Qed.


(** C4 on the code. Given the preview of the call: if no record's preview
    confidence reaches the escalation threshold, nothing is selected, the
    allocator is not called, the world is left as it was (the usage
    included) and every record gets the preview. If records are selected,
    the reservation does not answer [False] when the budget is short: it
    raises (see C1) whatever the budget, and so does [batch_predict], which
    does not fall back to the preview. *)
Theorem batch_predict_fallback (self : OptionsPredictor)
    (feats : list Feature) (w : World) (pred : Z) (conf : float) :
  fst (_classical_predict self w) = Ok (pred, conf) ->
  let n := length feats in
  let preds := replicate n pred in
  let confs := replicate n conf in
  QPU_THRESHOLD = 0.75%float /\
  (Forall (fun c => Py.ge c QPU_THRESHOLD = false) confs ->
     select_qpu confs = [] /\
     batch_predict self feats w = (Ok (preds, confs), w)) /\
  (select_qpu confs <> [] ->
     batch_predict self feats w
     = (Raise (TypeError "'Transaction' object is not callable"), w)).
Proof.
  intros Hprev n preds confs.
  rewrite classical_predict_pure in Hprev. cbn [fst] in Hprev.
  split; [reflexivity|]. split.
  - intros Hbelow. apply Forall_replicate_inv in Hbelow.
    split.
    + unfold confs. rewrite select_qpu_replicate.
      destruct Hbelow as [Hn | ->]; [|done].
      rewrite Hn. by destruct (Py.ge _ _).
    + apply batch_predict_unrefined; [done|].
      destruct Hbelow as [Hn | Hlow]; [left | by right].
      by apply length_zero_iff_nil.
  - intros Hsel. unfold confs in Hsel. rewrite select_qpu_replicate in Hsel.
    destruct (Py.ge conf QPU_THRESHOLD) eqn:Hge; [|done].
    assert (Hne : feats <> []) by (intros ->; by apply Hsel).
    rewrite (batch_predict_selected self feats w pred conf Hprev Hne Hge).
    apply bind_raise, use_shots_raises.
Qed.


(** C10. One preview is broadcast to the whole batch, so the selection is
    every index or none, and a batch is refined as a whole or not at all: the
    lists returned are the preview repeated for every record, or every record
    is recomputed from a histogram of the backend. *)
Theorem escalation_all_or_none (self : OptionsPredictor)
    (feats : list Feature) (w : World) (pred : Z) (conf : float) :
  fst (_classical_predict self w) = Ok (pred, conf) ->
  let n := length feats in
  (select_qpu (replicate n conf) = seq 0 n \/ select_qpu (replicate n conf) = []) /\
  forall (preds : list Z) (confs : list float) (w' : World),
    batch_predict self feats w = (Ok (preds, confs), w') ->
    (preds = replicate n pred /\ confs = replicate n conf) \/
    (exists hists : list Histogram,
        length hists = n /\ Forall submitted hists /\
        preds = map fused_signal hists /\
        confs = map fused_confidence hists).
Proof.
  intros Hprev n.
  rewrite classical_predict_pure in Hprev. cbn [fst] in Hprev. split.
  - rewrite select_qpu_replicate. destruct (Py.ge _ _); auto.
  - intros preds confs w' Hrun.
    destruct (batch_predict_cases self feats w)
      as [(e & He & Hbp) | [(p & c & Hp & _ & Hbp)
                           | (p & c & Hp & Hne & Hge & Hbp)]].
    + rewrite Hbp in Hrun. discriminate.
    + rewrite Hbp in Hrun. rewrite Hprev in Hp.
      inversion Hp; subst. inversion Hrun; subst. by left.
    + rewrite Hbp in Hrun. discriminate.
Qed.

End PipelineProperties.

Section FloatFacts.

(** *** Subtraction is the addition of the opposite *)

Lemma SFsub_add_opp (x y : spec_float) :
  SFsub prec emax x y = SFadd prec emax x (SFopp y).
Proof.
  destruct x as [sx|sx| |sx mx ex], y as [sy|sy| |sy my ey];
    try reflexivity;
    destruct sx, sy; reflexivity.
Qed.

Lemma sub_add_opp (x y : float) :
  PrimFloat.sub x y = PrimFloat.add x (PrimFloat.opp y).
Proof.
  apply Prim2SF_inj. rewrite sub_spec, add_spec, opp_spec.
  apply SFsub_add_opp.
Qed.

(** *** Rounding to two decimals keeps [[0, 1]] *)

Lemma digits2_pos_bound (m : positive) :
  Z.pos m < 2 ^ Z.pos (digits2_pos m).
Proof.
  induction m as [m IH|m IH|]; simpl; [| |lia].
  - rewrite Pos2Z.inj_succ, Z.pow_succ_r by lia. lia.
  - rewrite Pos2Z.inj_succ, Z.pow_succ_r by lia. lia.
Qed.

Lemma round_half_even_bound (n d : Z) :
  0 < d -> 0 <= n <= 100 * d -> 0 <= Py.round_half_even n d <= 100.
Proof.
  intros Hd Hn. unfold Py.round_half_even.
  pose proof (Z.div_mod n d ltac:(lia)) as Hdm.
  pose proof (Z.mod_pos_bound n d Hd) as Hr.
  assert (Hq0 : 0 <= n / d) by (apply Z.div_pos; lia).
  assert (Hq1 : n / d <= 100) by (apply Z.div_le_upper_bound; lia).
  assert (Htop : n / d = 100 -> n mod d = 0) by nia.
  destruct (Z.ltb_spec (2 * (n mod d)) d); [lia|].
  assert (n / d < 100) by lia.
  destruct (Z.ltb_spec d (2 * (n mod d))); [lia|].
  destruct (Z.even (n / d)); lia.
Qed.

Lemma hundredths_unit (k : Z) :
  0 <= k <= 100 -> unit_interval (Py.hundredths false k).
Proof.
  intros Hk.
  assert (Hall : List.forallb
            (fun n : nat =>
               Py.le 0 (Py.hundredths false (Z.of_nat n)) &&
               Py.le (Py.hundredths false (Z.of_nat n)) 1)
            (seq 0 101) = true) by (vm_compute; reflexivity).
  pose proof (proj1 (List.forallb_forall _ _) Hall (Z.to_nat k)) as Hk'.
  cbv beta in Hk'. rewrite Z2Nat.id in Hk' by lia.
  apply andb_true_iff. apply Hk'. apply in_seq. lia.
Qed.

Lemma one_spec : Prim2SF 1 = S754_finite false 4503599627370496 (-52).
Proof. vm_compute. reflexivity. Qed.

Lemma is_nan_false (x : float) : is_nan x = false -> Prim2SF x <> S754_nan.
Proof.
  unfold is_nan. rewrite FloatAxioms.eqb_spec. intros Hnn Hsf. rewrite Hsf in Hnn.
  discriminate.
Qed.

(** A finite non-negative double that is not above one: its mantissa and
    exponent, as a fraction, are at most one. *)
Lemma finite_le_one (m : positive) (e : Z) :
  valid_binary (S754_finite false m e) = true ->
  SFltb (Prim2SF 1) (S754_finite false m e) = false ->
  e < 0 /\ Z.pos m <= 2 ^ (- e).
Proof.
  intros Hvalid Hlt. rewrite one_spec in Hlt.
  unfold SFltb, SFcompare in Hlt.
  unfold SpecFloat.valid_binary, bounded, canonical_mantissa, fexp in Hvalid.
  apply andb_true_iff in Hvalid as [Hcanon _]. apply Z.eqb_eq in Hcanon.
  pose proof (digits2_pos_bound m) as Hdig.
  assert (Hd53 : Z.pos (digits2_pos m) <= 53) by (unfold prec, emin, emax in Hcanon; lia).
  assert (Hp : 2 ^ Z.pos (digits2_pos m) <= 2 ^ 53) by (apply Z.pow_le_mono_r; lia).
  clear Hcanon.
  set (P53 := 2 ^ 53) in *.
  assert (Hm53 : Z.pos m < P53) by lia.
  destruct (Z.compare_spec (-52) e) as [He|He|He].
  - subst e. split; [lia|].
    change (2 ^ (- -52)) with (Z.pos 4503599627370496).
    destruct (Pos.compare_cont Eq 4503599627370496 m) eqn:Hcmp.
    + apply Pos.compare_eq in Hcmp. rewrite <- Hcmp. reflexivity.
    + discriminate Hlt.
    + apply Pos.compare_gt_iff in Hcmp. apply Pos2Z.pos_le_pos. apply Pos.lt_le_incl. exact Hcmp.
  - discriminate Hlt.
  - split; [lia|].
    assert (P53 <= 2 ^ (- e)) by (apply Z.pow_le_mono_r; lia). lia.
Qed.

Lemma unit_interval_one : unit_interval 1.
Proof. split; vm_compute; reflexivity. Qed.

Lemma round2_unit (a : float) :
  Prim2SF a <> S754_nan ->
  Py.le 0 a = true ->
  Py.lt 1 a = false ->
  unit_interval (Py.round2 a).
Proof.
  intros Hnan Hpos H1.
  unfold Py.le in Hpos. rewrite leb_spec in Hpos.
  unfold Py.lt in H1. rewrite ltb_spec in H1.
  pose proof (Prim2SF_valid a) as Hvalid.
  unfold Py.round2.
  destruct (Prim2SF a) as [s|s| |s m e] eqn:Hsf.
  - (* zero *)
    rewrite <- (SF2Prim_Prim2SF a), Hsf.
    destruct s; split; vm_compute; reflexivity.
  - (* infinity *)
    destruct s; vm_compute in Hpos, H1; discriminate.
  - congruence.
  - destruct s; [vm_compute in Hpos; discriminate|].
    destruct (finite_le_one m e Hvalid H1) as [He Hm].
    destruct (Z.leb_spec 0 e) as [?|_]; [lia|].
    apply hundredths_unit. apply round_half_even_bound.
    + apply Z.pow_pos_nonneg; lia.
    + lia.
Qed.

Lemma confidence_of_unit (score : float) :
  is_nan score = false -> unit_interval (confidence_of score).
Proof.
  intros Hnn. apply is_nan_false in Hnn.
  unfold confidence_of, Py.min.
  destruct (Py.lt 1 (PrimFloat.abs score)) eqn:Hlt.
  - replace (Py.round2 1) with 1%float by (vm_compute; reflexivity).
    apply unit_interval_one.
  - apply round2_unit; [| |exact Hlt].
    + rewrite abs_spec. destruct (Prim2SF score); simpl; congruence.
    + unfold Py.le. rewrite leb_spec, abs_spec.
      destruct (Prim2SF score) as [s|s| |s m e]; try reflexivity. congruence.
Qed.

Lemma valid_signal_fused (h : Histogram) : valid_signal (fused_signal h).
Proof. unfold valid_signal, fused_signal. destruct (Py.ge _ _); auto. Qed.

Lemma valid_signal_prediction (score : float) : valid_signal (prediction_of score).
Proof. unfold valid_signal, prediction_of. destruct (Py.ge _ _); auto. Qed.

Lemma fused_confidence_submitted (h : Histogram) :
  submitted h -> unit_interval (fused_confidence h).
Proof.
  intros (ones & Hrange & ->). unfold shots_per_row in Hrange.
  assert (Hall : List.forallb
            (fun n : nat =>
               let c := fused_confidence
                          (<["0" := shots_per_row - Z.of_nat n]>
                             (<["1" := Z.of_nat n]> ∅)) in
               Py.le 0 c && Py.le c 1)
            (seq 0 101) = true) by (vm_compute; reflexivity).
  pose proof (proj1 (List.forallb_forall _ _) Hall (Z.to_nat ones)) as Hk.
  cbv beta zeta in Hk. rewrite Z2Nat.id in Hk by lia.
  apply andb_true_iff. apply Hk. apply in_seq. lia.
Qed.

End FloatFacts.

Section ScorerProperties.

Context `{External}.

Lemma classical_score_spec (rules : gmap string float) (df : list float) :
  classical_score rules df = spec_score rules df.
Proof.
  unfold classical_score, spec_score, spec_contributions, threshold_contribution.
  unfold mbind, result_bind, mret, result_ret.
  destruct (Py.index df (-1)) as [close|e]; [|done].
  destruct (Py.index df (-4)) as [c4|e]; [|done].
  destruct (Py.truediv _ c4) as [mom3d|e]; [|done].
  destruct (rsi df 14) as [rsi14|e]; [|done].
  destruct (Py.getitem rules "ma_trend_weight") as [w_ma|e]; [|done].
  destruct (Py.getitem rules "momentum_3d_weight") as [w_mom|e]; [|done].
  destruct (Py.getitem rules "rsi_high") as [rsi_high|e]; [|done].
  destruct (Py.getitem rules "rsi_extreme_weight") as [w_rsi|e];
    destruct (Py.getitem rules "rsi_low") as [rsi_low|e'];
    destruct (Py.ge rsi14 rsi_high); try done;
    try (destruct (Py.le rsi14 rsi_low); try done);
    destruct (Py.getitem rules "iv_rank_high") as [iv_high|e3]; try done;
    destruct (Py.getitem rules "vol_rank_weight") as [w_vol|e1];
    destruct (Py.getitem rules "iv_rank_low") as [iv_low|e2];
    destruct (Py.ge _ iv_high); try done;
    try (destruct (Py.le _ iv_low); try done);
    simpl; rewrite ?sub_add_opp; reflexivity.
Qed.

(** C6. The classical scorer is a function of the rule set and the price
    history alone, and leaves the state as it found it: a call returns what
    the specification's formula gives on them, [signal = +1 if score >= 0 else
    -1] and [confidence = round(min(|score|, 1.0), 2)] for the score that sums
    the trend, momentum, oscillator-threshold and volatility-rank-threshold
    contributions; so two calls in a row, or two calls in worlds with the same
    rules and history, return the same pair. *)
Theorem classical_predict_deterministic (self : OptionsPredictor) (w : World) :
  _classical_predict self w
  = (spec_predict (RULES w) (close_recent w (ticker self) (lookback_days self)), w)
  /\ (r1 ← _classical_predict self; r2 ← _classical_predict self; mret (r1, r2)) w
     = (r ← _classical_predict self; mret (r, r)) w
  /\ forall w2 : World,
       RULES w2 = RULES w ->
       close_recent w2 (ticker self) (lookback_days self)
       = close_recent w (ticker self) (lookback_days self) ->
       fst (_classical_predict self w2) = fst (_classical_predict self w).
Proof.
  assert (Hspec : forall w0 : World,
             preview_of self w0
             = spec_predict (RULES w0)
                 (close_recent w0 (ticker self) (lookback_days self))).
  { intros w0. unfold preview_of, spec_predict.
    by rewrite classical_score_spec. }
  split; [|split].
  - by rewrite classical_predict_pure, Hspec.
  - unfold mbind, M_bind, mret, M_ret. rewrite classical_predict_pure.
    destruct (preview_of self w) as [r|e] eqn:Hr; [|done].
    by rewrite classical_predict_pure, Hr.
  - intros w2 Hrules Hhist. rewrite !classical_predict_pure. simpl.
    rewrite !Hspec. by rewrite Hrules, Hhist.
Qed.

(** With the compiled-in defaults the score is one of finitely many sums of
    the four weights, none of which is NaN. *)
Lemma default_score_not_nan (df : list float) (score : float) :
  classical_score DEFAULT_RULES df = Ok score -> is_nan score = false.
Proof.
  unfold classical_score.
  unfold mbind, result_bind, mret, result_ret.
  destruct (Py.index df (-1)) as [close|e]; [|discriminate].
  destruct (Py.index df (-4)) as [c4|e]; [|discriminate].
  destruct (Py.truediv _ c4) as [mom3d|e]; [|discriminate].
  destruct (rsi df 14) as [rsi14|e]; [|discriminate].
  change (Py.getitem DEFAULT_RULES "ma_trend_weight") with (Ok 0.4%float : result float).
  change (Py.getitem DEFAULT_RULES "momentum_3d_weight") with (Ok 0.1%float : result float).
  change (Py.getitem DEFAULT_RULES "rsi_high") with (Ok 70%float : result float).
  change (Py.getitem DEFAULT_RULES "rsi_low") with (Ok 30%float : result float).
  change (Py.getitem DEFAULT_RULES "rsi_extreme_weight") with (Ok 0.3%float : result float).
  change (Py.getitem DEFAULT_RULES "iv_rank_high") with (Ok 0.7%float : result float).
  change (Py.getitem DEFAULT_RULES "iv_rank_low") with (Ok 0.3%float : result float).
  change (Py.getitem DEFAULT_RULES "vol_rank_weight") with (Ok 0.2%float : result float).
  cbv beta iota zeta.
  destruct (Py.gt close (ma df 10)), (Py.gt mom3d 0), (Py.ge rsi14 70), (Py.le rsi14 30);
    intros Hs; vm_compute in Hs; inversion Hs; reflexivity.
Qed.

(** C7, as the code has it. Every signal [batch_predict] returns is [+1]
    or [-1]; every confidence it returns lies in [[0, 1]] provided the score of
    the preview is not NaN, which is the case whenever [RULES] is the
    compiled-in defaults. *)
Theorem batch_predict_in_range (self : OptionsPredictor)
    (feats : list Feature) (w w' : World) (preds : list Z) (confs : list float) :
  batch_predict self feats w = (Ok (preds, confs), w') ->
  Forall valid_signal preds /\
  ((forall score : float,
       classical_score (RULES w)
         (close_recent w (ticker self) (lookback_days self)) = Ok score ->
       is_nan score = false) ->
   Forall unit_interval confs) /\
  (RULES w = DEFAULT_RULES -> Forall unit_interval confs).
Proof.
  intros Hrun.
  assert (Hmain : Forall valid_signal preds /\
            ((forall score : float,
                 classical_score (RULES w)
                   (close_recent w (ticker self) (lookback_days self)) = Ok score ->
                 is_nan score = false) ->
             Forall unit_interval confs)).
  { destruct (batch_predict_cases self feats w)
      as [(e & He & Hbp) | [(p & c & Hp & _ & Hbp)
                           | (p & c & Hp & Hne & Hge & Hbp)]];
      rewrite Hbp in Hrun.
    - discriminate.
    - inversion Hrun; subst. unfold preview_of in Hp.
      unfold mbind, result_bind, mret, result_ret in Hp.
      destruct (classical_score _ _) as [score|e]; [|discriminate].
      inversion Hp; subst. split.
      + apply Forall_replicate, valid_signal_prediction.
      + intros Hnn. apply Forall_replicate, confidence_of_unit. by apply Hnn.
    - discriminate. }
  destruct Hmain as [Hsig Hconf]. split; [exact Hsig|]. split; [exact Hconf|].
  intros Hdefault. apply Hconf. rewrite Hdefault.
  intros score. apply default_score_not_nan.
Qed.

End ScorerProperties.

Section RuleSetProperties.

(** The import-time loop, file by file. *)
Lemma load_rules_unfold (files : gmap string override_text) :
  load_rules files =
    match files !! "best_params.json" with
    | Some (JsonObject params) => Ok (params ∪ DEFAULT_RULES)
    | Some NotJson => Raise JSONDecodeError
    | None =>
        match files !! "rules.json" with
        | Some (JsonObject params) => Ok (params ∪ DEFAULT_RULES)
        | Some NotJson => Raise JSONDecodeError
        | None => Ok DEFAULT_RULES
        end
    end.
Proof.
  reflexivity.
Qed.

(** C8, as the code has it. When the first override file that exists does
    not parse, the parser's exception leaves the import of [model.py]: there
    is no handler and no fall back to the defaults, not even to a well-formed
    [rules.json] behind a malformed [best_params.json]. *)
Theorem load_rules_malformed_raises (files : gmap string override_text) :
  files !! "best_params.json" = Some NotJson \/
  (files !! "best_params.json" = None /\ files !! "rules.json" = Some NotJson) ->
  load_rules files = Raise JSONDecodeError.
Proof.
  intros [Hbest | [Hbest Hrules]]; rewrite load_rules_unfold, Hbest; [done|].
  by rewrite Hrules.
Qed.

End RuleSetProperties.

Section TuningProperties.

Context `{External}.

Lemma refine_all_frame (feats : list Feature) (w w' : World)
    (r : result (list Z * list float)) :
  refine_all feats w = (r, w') -> w' = set_rng (rng w') w.
Proof.
  unfold refine_all, lift, mbind, M_bind, mret, M_ret.
  destruct (result_mapM build_circuit feats) as [cs|e].
  - destruct (submit cs w) as [[hists|e] w3] eqn:Hsub;
      intros Heq; inversion Heq; subst; apply (submit_frame _ _ _ _ Hsub).
  - intros Heq. inversion Heq; subst. by rewrite world_eta.
Qed.

(** [batch_predict] never writes [RULES]. *)
Lemma batch_predict_keeps_rules (self : OptionsPredictor)
    (feats : list Feature) (w : World) :
  RULES (snd (batch_predict self feats w)) = RULES w.
Proof. by rewrite batch_predict_world. Qed.

Lemma simulate_rows_keeps_rules (df : list float) (n : nat) :
  forall (k : nat) (w : World),
    RULES (snd (simulate_rows df k n w)) = RULES w.
Proof.
  induction n as [|n IH]; intros k w; cbn [simulate_rows]; [done|].
  unfold lift, mbind, M_bind, mret, M_ret.
  destruct (Py.index df (Z.of_nat k)) as [close_today|e]; [|done].
  destruct (Py.index df (Z.of_nat (k + 7))) as [close_next|e]; [|done].
  pose proof (batch_predict_keeps_rules default_predictor
                (_build_features close_today) w) as Hbp.
  destruct (batch_predict default_predictor (_build_features close_today) w)
    as [[[preds confs]|e] w1]; simpl in Hbp; [|done].
  destruct (Py.index preds 0) as [sig|e]; [|done].
  destruct (Py.index confs 0) as [cf|e]; [|done].
  destruct (Py.truediv _ close_today) as [ret|e]; [|done].
  specialize (IH (S k) w1).
  destruct (simulate_rows df (S k) n w1) as [[rows|e] w2];
    simpl in *; congruence.
Qed.

Lemma run_backtest_keeps_rules (tk : string) (days : Z) (w : World) :
  RULES (snd (run_backtest tk days w)) = RULES w.
Proof.
  unfold run_backtest, simulate, gets, lift, mbind, M_bind, mret, M_ret.
  destruct (length (close_window w tk days) <? 8)%nat; [done|].
  pose proof (simulate_rows_keeps_rules (close_window w tk days)
                (length (close_window w tk days) - 7) 0 w) as Hrows.
  by destruct (simulate_rows _ 0 _ w) as [[rows|e] w1].
Qed.

(** C9 on the code. [objective] stores the sampled values as user
    attributes of the trial only: no step of the backtest writes [RULES], which
    is after the trial what it was before, and the metric and the state left
    behind do not depend on what the trial sampled. *)
Theorem objective_ignores_candidate (t1 t2 : Trial) (target : float) (w : World) :
  RULES (snd (objective t1 target w)) = RULES w /\
  snd (objective t1 target w) = snd (objective t2 target w) /\
  trial_metric (fst (objective t1 target w))
  = trial_metric (fst (objective t2 target w)).
Proof.
  pose proof (run_backtest_keeps_rules "AAPL" 91 w) as Hrules.
  unfold objective, trial_metric.
  destruct (run_backtest "AAPL" 91 w) as [[[rows hit_rate]|e] w1]; simpl in *; auto.
Qed.

End TuningProperties.

Section RuleSetExtras.

Lemma load_rules_first_override (files : gmap string override_text)
    (params : gmap string float) :
  files !! "best_params.json" = Some (JsonObject params) \/
  (files !! "best_params.json" = None /\
   files !! "rules.json" = Some (JsonObject params)) ->
  load_rules files = Ok (params ∪ DEFAULT_RULES).
Proof.
  intros [Hbest | [Hbest Hrules]]; rewrite load_rules_unfold, Hbest; [done|].
  by rewrite Hrules.
Qed.

(** X1 ([model.py], the override block). When [best_params.json] holds a
    JSON object, or is absent while [rules.json] holds one, the import
    succeeds and [RULES] is the defaults updated by that object: a key of
    the object has the object's value, whether or not the defaults know it,
    and every other key keeps its default. *)
Theorem load_rules_merges_override (files : gmap string override_text)
    (params : gmap string float) :
  files !! "best_params.json" = Some (JsonObject params) \/
  (files !! "best_params.json" = None /\
   files !! "rules.json" = Some (JsonObject params)) ->
  exists rules,
    load_rules files = Ok rules /\
    forall k : string,
      rules !! k = match params !! k with
                   | Some v => Some v
                   | None => DEFAULT_RULES !! k
                   end.
Proof.
  intros Hsrc. exists (params ∪ DEFAULT_RULES).
  split; [by apply load_rules_first_override|].
  intros k. rewrite lookup_union.
  destruct (params !! k) as [v|] eqn:Hk; simpl.
  - by destruct (DEFAULT_RULES !! k).
  - by destruct (DEFAULT_RULES !! k).
Qed.

Lemma load_rules_ok_inv (files : gmap string override_text)
    (rules : gmap string float) :
  load_rules files = Ok rules ->
  rules = DEFAULT_RULES \/ exists params, rules = params ∪ DEFAULT_RULES.
Proof.
  rewrite load_rules_unfold.
  destruct (files !! "best_params.json") as [[p|]|].
  - intros [= <-]. right. by exists p.
  - discriminate.
  - destruct (files !! "rules.json") as [[p|]|].
    + intros [= <-]. right. by exists p.
    + discriminate.
    + intros [= <-]. by left.
Qed.

Lemma loaded_rules_keep_keys (files : gmap string override_text)
    (rules : gmap string float) (k : string) :
  load_rules files = Ok rules ->
  is_Some (DEFAULT_RULES !! k) -> exists v, Py.getitem rules k = Ok v.
Proof.
  intros Hload [d Hd]. unfold Py.getitem.
  destruct (load_rules_ok_inv _ _ Hload) as [-> | [p ->]].
  - rewrite Hd. by exists d.
  - rewrite lookup_union, Hd. destruct (p !! k) as [v|]; simpl; eauto.
Qed.

End RuleSetExtras.

Section ScorerExtras.
Context `{External}.

Lemma index_last_ok {A} (l : list A) (k : Z) :
  0 < k ->
  (exists a, Py.index l (- k) = Ok a) <-> k <= Z.of_nat (length l).
Proof.
  intros Hk. unfold Py.index.
  destruct (Z.ltb_spec (- k) 0) as [_|?]; [|lia].
  destruct (Z.leb_spec 0 (Z.of_nat (length l) + - k)) as [Hlo|Hlo]; simpl.
  - destruct (Z.ltb_spec (Z.of_nat (length l) + - k) (Z.of_nat (length l))) as [Hhi|?]; [|lia].
    destruct (lookup_lt_is_Some_2 l (Z.to_nat (Z.of_nat (length l) + - k))) as [a Ha]; [lia|].
    rewrite Ha. split; [lia | eauto].
  - split; [intros [a Ha]; discriminate | lia].
Qed.

Lemma index_raise {A} (l : list A) (i : Z) (e : exn) :
  Py.index l i = Raise e -> e = IndexError.
Proof.
  unfold Py.index. destruct (_ && _); [destruct (l !! _)|]; congruence.
Qed.

Lemma truediv_raise (x y : float) (e : exn) :
  Py.truediv x y = Raise e -> e = ZeroDivisionError /\ Py.eq y 0 = true.
Proof. unfold Py.truediv. destruct (Py.eq y 0); [|discriminate]. by intros [= <-]. Qed.

Lemma rsi_raise (df : list float) (w : nat) (e : exn) :
  rsi df w = Raise e -> e = ZeroDivisionError.
Proof.
  unfold rsi, mbind, result_bind, mret, result_ret.
  destruct (_ <? _)%nat; [discriminate|].
  destruct (Py.eq _ 0); [discriminate|].
  destruct (Py.truediv _ _) as [rs|e1] eqn:H1.
  - destruct (Py.truediv 100 _) as [q|e2] eqn:H2; [discriminate|].
    intros [= <-]. by apply truediv_raise in H2 as [-> _].
  - intros [= <-]. by apply truediv_raise in H1 as [-> _].
Qed.

(** The two threshold blocks of the scorer raise nothing but a missing key. *)
Lemma getitem_raise {V} (d : gmap string V) (k : string) (e : exn) :
  Py.getitem d k = Raise e -> e = KeyError k.
Proof. unfold Py.getitem. destruct (d !! k); congruence. Qed.

Lemma classical_score_raise (rules : gmap string float) (df : list float) (e : exn) :
  classical_score rules df = Raise e ->
  (e = IndexError /\ (length df < 4)%nat) \/
  (e = ZeroDivisionError /\ (4 <= length df)%nat) \/
  (exists k, e = KeyError k /\ rules !! k = None /\
             is_Some (DEFAULT_RULES !! k) /\ (4 <= length df)%nat).
Proof.
  unfold classical_score. unfold mbind, result_bind, mret, result_ret.
  destruct (Py.index df (-1)) as [close|e1] eqn:H1.
  2:{ intros [= <-]. left. split; [by apply index_raise in H1|].
      destruct (Nat.lt_ge_cases (length df) 4) as [|Hge]; [done|].
      destruct (proj2 (index_last_ok df 1 ltac:(lia)) ltac:(lia)) as [a Ha].
      change (- (1)) with (-1) in Ha. congruence. }
  destruct (Py.index df (-4)) as [c4|e4] eqn:H4.
  2:{ intros [= <-]. left. split; [by apply index_raise in H4|].
      destruct (Nat.lt_ge_cases (length df) 4) as [|Hge]; [done|].
      destruct (proj2 (index_last_ok df 4 ltac:(lia)) ltac:(lia)) as [a Ha].
      change (- (4)) with (-4) in Ha. congruence. }
  assert (Hlen : (4 <= length df)%nat).
  { pose proof (proj1 (index_last_ok df 4 ltac:(lia)) (ex_intro _ c4 H4)). lia. }
  assert (Hkey : forall k e0,
             is_Some (DEFAULT_RULES !! k) ->
             Py.getitem rules k = Raise e0 ->
             exists k', e0 = KeyError k' /\ rules !! k' = None /\
                        is_Some (DEFAULT_RULES !! k') /\ (4 <= length df)%nat).
  { intros k e0 Hdef Hg. exists k. split; [by apply getitem_raise in Hg|].
    split; [|done]. unfold Py.getitem in Hg. by destruct (rules !! k). }
  destruct (Py.truediv _ c4) as [mom3d|e2] eqn:H2.
  2:{ intros [= <-]. right. left. by apply truediv_raise in H2 as [-> _]. }
  destruct (rsi df 14) as [rsi14|e3] eqn:H3.
  2:{ intros [= <-]. right. left. by apply rsi_raise in H3 as ->. }
  repeat match goal with
  | |- context [match Py.getitem rules ?k with _ => _ end] =>
      let E := fresh "Hg" in
      destruct (Py.getitem rules k) eqn:E;
      [| intros [= <-]; right; right;
         apply (Hkey k); [vm_compute; eauto | exact E]]
  | |- context [if ?b then _ else _] => destruct b
  end; discriminate.
Qed.

(** X2 ([_classical_predict]). The scorer raises [IndexError] exactly when
    the history has fewer than four closes, whatever the rules. *)
Theorem scorer_index_error_iff (rules : gmap string float) (df : list float) :
  classical_score rules df = Raise IndexError <-> (length df < 4)%nat.
Proof.
  split.
  - intros Hraise.
    destruct (classical_score_raise _ _ _ Hraise)
      as [[_ Hlen] | [[? _] | (k & ? & _)]]; [done | discriminate | discriminate].
  - intros Hlen. unfold classical_score, mbind, result_bind.
    destruct (Py.index df (-1)) as [close|e1] eqn:H1;
      [|by apply index_raise in H1 as ->].
    destruct (Py.index df (-4)) as [c4|e4] eqn:H4;
      [|by apply index_raise in H4 as ->].
    pose proof (proj1 (index_last_ok df 4 ltac:(lia)) (ex_intro _ c4 H4)). lia.
Qed.

(** X3 ([_classical_predict] under complete rules). When [RULES] holds a
    float under each of the ten keys of the defaults (the two int thresholds
    of the defaults counting as the floats equal to them), as it does after
    an import with no override file or with an override object of floats,
    the scorer never raises [KeyError]: it fails with [IndexError] on fewer
    than four closes, and otherwise only with [ZeroDivisionError]. *)
Theorem complete_rules_scorer_failures (rules : gmap string float)
    (df : list float) (e : exn) :
  (forall k : string, is_Some (DEFAULT_RULES !! k) -> is_Some (rules !! k)) ->
  classical_score rules df = Raise e ->
  (e = IndexError /\ (length df < 4)%nat) \/
  (e = ZeroDivisionError /\ (4 <= length df)%nat).
Proof.
  intros Hkeys Hraise.
  destruct (classical_score_raise _ _ _ Hraise)
    as [Hidx | [Hzero | (k & _ & Hnone & Hdef & _)]]; [by left | by right |].
  destruct (Hkeys k Hdef) as [v Hv]. congruence.
Qed.

End ScorerExtras.

Section ScorerExtras2.
Context `{External}.

Lemma zip_with_length_le {A B C} (f : A -> B -> C) (l : list A) (k : list B) :
  (length (zip_with f l k) <= length k)%nat.
Proof.
  revert k. induction l as [|a l IH]; intros [|b k]; simpl; try lia.
  specialize (IH k). lia.
Qed.

Lemma dropna_diff_length (df : list float) :
  (length (dropna (series_diff df)) <= length df - 1)%nat.
Proof.
  destruct df as [|x t]; [simpl; lia|].
  unfold series_diff, dropna. rewrite filter_cons.
  change (is_nan nan) with true. rewrite decide_False by done.
  etransitivity; [apply length_filter|].
  etransitivity; [apply zip_with_length_le|]. simpl. lia.
Qed.

(** X4 ([rsi]). A history of at most [window] closes has fewer than [window]
    differences, so [rsi] answers the neutral 50.0, whatever the closes
    (NaN included). *)
Theorem rsi_neutral_on_short_history (df : list float) (w : nat) :
  (0 < w)%nat -> (length df <= w)%nat -> rsi df w = Ok 50%float.
Proof.
  intros Hw Hlen. unfold rsi.
  pose proof (dropna_diff_length df) as Hd.
  destruct (Nat.ltb_spec (length (dropna (series_diff df))) w) as [_|?]; [done | lia].
Qed.

Lemma complete_rules_getitem (rules : gmap string float) (k : string) :
  (forall k : string, is_Some (DEFAULT_RULES !! k) -> is_Some (rules !! k)) ->
  is_Some (DEFAULT_RULES !! k) -> exists v, Py.getitem rules k = Ok v.
Proof.
  intros Hkeys Hdef. destruct (Hkeys k Hdef) as [v Hv].
  exists v. unfold Py.getitem. by rewrite Hv.
Qed.

(** X5 ([_classical_predict] on a short history). When [RULES] holds a
    float under each of the ten keys of the defaults and the history has
    between 4 and 14 closes, the scorer returns a score as soon as the close
    of three days ago is not zero: the lookups of the thresholds and weights
    succeed and the RSI is the neutral default. *)
Theorem scorer_returns_on_short_history (rules : gmap string float)
    (df : list float) :
  (forall k : string, is_Some (DEFAULT_RULES !! k) -> is_Some (rules !! k)) ->
  (4 <= length df <= 14)%nat ->
  (forall c4, Py.index df (-4) = Ok c4 -> Py.eq c4 0 = false) ->
  exists score, classical_score rules df = Ok score.
Proof.
  intros Hkeys [Hlo Hhi] Hc4.
  destruct (proj2 (index_last_ok df 1 ltac:(lia)) ltac:(lia)) as [close H1].
  destruct (proj2 (index_last_ok df 4 ltac:(lia)) ltac:(lia)) as [c4 H4].
  change (- (1)) with (-1) in H1. change (- (4)) with (-4) in H4.
  unfold classical_score, mbind, result_bind, mret, result_ret.
  rewrite H1, H4. unfold Py.truediv at 1. rewrite (Hc4 c4 H4).
  assert (Hrsi : rsi df 14 = Ok 50%float).
  { unfold rsi. pose proof (dropna_diff_length df) as Hd.
    destruct (Nat.ltb_spec (length (dropna (series_diff df))) 14) as [_|?];
      [done | lia]. }
  rewrite Hrsi.
  destruct (complete_rules_getitem rules "ma_trend_weight" Hkeys
              ltac:(vm_compute; eauto)) as [w_ma ->].
  destruct (complete_rules_getitem rules "momentum_3d_weight" Hkeys
              ltac:(vm_compute; eauto)) as [w_mom ->].
  destruct (complete_rules_getitem rules "rsi_high" Hkeys
              ltac:(vm_compute; eauto)) as [rsi_high ->].
  destruct (complete_rules_getitem rules "rsi_low" Hkeys
              ltac:(vm_compute; eauto)) as [rsi_low ->].
  destruct (complete_rules_getitem rules "rsi_extreme_weight" Hkeys
              ltac:(vm_compute; eauto)) as [w_rsi ->].
  destruct (complete_rules_getitem rules "iv_rank_high" Hkeys
              ltac:(vm_compute; eauto)) as [iv_high ->].
  destruct (complete_rules_getitem rules "iv_rank_low" Hkeys
              ltac:(vm_compute; eauto)) as [iv_low ->].
  destruct (complete_rules_getitem rules "vol_rank_weight" Hkeys
              ltac:(vm_compute; eauto)) as [w_vol ->].
  repeat match goal with
  | |- context [if ?b then _ else _] => destruct b
  end; eauto.
Qed.

End ScorerExtras2.

Section MeanFacts.

(** The quotient of a positive integer by itself is exactly one. *)
Lemma SFdiv_self (p : positive) :
  SFdiv prec emax (S754_finite false p 0) (S754_finite false p 0)
  = S754_finite false 4503599627370496 (-52).
Proof.
  unfold SFdiv, SFdiv_core_binary.
  replace (Zdigits2 (Z.pos p) + 0 - (Zdigits2 (Z.pos p) + 0)) with 0 by lia.
  change (Z.min (fexp prec emax 0) (0 - 0)) with (-53).
  change (0 - 0 - -53) with 53.
  cbv iota beta zeta.
  rewrite Z.shiftl_mul_pow2 by lia.
  assert (Hdiv : Z.div_eucl (Z.pos p * 2 ^ 53) (Z.pos p) = (2 ^ 53, 0)).
  { pose proof (Z.div_eucl_eq (Z.pos p * 2 ^ 53) (Z.pos p) ltac:(lia)) as Heq.
    pose proof (Z.mod_pos_bound (Z.pos p * 2 ^ 53) (Z.pos p) ltac:(lia)) as Hb.
    unfold Z.modulo in Hb.
    destruct (Z.div_eucl (Z.pos p * 2 ^ 53) (Z.pos p)) as [q r].
    set (P := 2 ^ 53) in *.
    assert (Hq : q = P).
    { destruct (Z.lt_trichotomy q P) as [Hlt | [Heq' | Hgt]]; [|done|].
      - assert (Z.pos p * (P - q) >= Z.pos p * 1) by (apply Z.le_ge, Z.mul_le_mono_nonneg_l; lia).
        lia.
      - assert (Z.pos p * (q - P) >= Z.pos p * 1) by (apply Z.le_ge, Z.mul_le_mono_nonneg_l; lia).
        lia. }
    subst q. f_equal. lia. }
  rewrite Hdiv.
  assert (Hloc : new_location (Z.pos p) 0 = loc_Exact).
  { unfold new_location, new_location_even, new_location_odd.
    destruct (Z.even (Z.pos p)); reflexivity. }
  rewrite Hloc. vm_compute. reflexivity.
Qed.

Lemma bool_mean_all_true (bs : list bool) :
  bs <> [] -> Forall (fun b => b = true) bs -> bool_mean bs = 1%float.
Proof.
  intros Hne Hall. unfold bool_mean.
  assert (Hf : filter (fun b : bool => b = true) bs = bs).
  { induction Hall as [|b bs Hb Hall IH]; [done|].
    rewrite filter_cons, decide_True by done. f_equal.
    destruct bs; [done|]. by apply IH. }
  rewrite Hf. destruct bs as [|b bs]; [done|].
  unfold Py.int_truediv. cbn [length]. rewrite Nat2Z.inj_succ.
  destruct (Z.succ (Z.of_nat (length bs))) as [|p|p] eqn:Hp; [lia| |lia].
  cbv beta iota zeta delta [Z.abs Z.ltb Z.compare xorb].
  rewrite SFdiv_self. vm_compute. reflexivity.
Qed.

Lemma bool_mean_all_false (bs : list bool) :
  bs <> [] -> Forall (fun b => b = false) bs -> bool_mean bs = 0%float.
Proof.
  intros Hne Hall. unfold bool_mean.
  assert (Hf : filter (fun b : bool => b = true) bs = []).
  { induction Hall as [|b bs Hb Hall IH]; [done|].
    rewrite filter_cons, decide_False by (subst b; done).
    destruct bs; [done|]. by apply IH. }
  rewrite Hf. destruct bs as [|b bs]; [done|].
  unfold Py.int_truediv. cbn [length]. rewrite Nat2Z.inj_succ.
  destruct (Z.succ (Z.of_nat (length bs))) as [|p|p] eqn:Hp; [lia| |lia].
  vm_compute. reflexivity.
Qed.

End MeanFacts.

Section BatchExtras.
Context `{External}.

(** X6 ([batch_predict], the quota). A call leaves today's usage as it was
    or adds exactly 100 shots per record of the batch, never a part of it;
    usage never decreases, and a usage within the daily budget stays within
    it. *)
Theorem batch_predict_usage (self : OptionsPredictor) (feats : list Feature)
    (w : World) :
  let needed := Z.of_nat (length feats) * SHOTS_PER_FEAT in
  let w' := snd (batch_predict self feats w) in
  (used_today w' = used_today w \/ used_today w' = used_today w + needed) /\
  used_today w <= used_today w' /\
  (used_today w <= _DAILY_BUDGET -> used_today w' <= _DAILY_BUDGET).
Proof.
  intros needed w'. unfold w'. rewrite batch_predict_world.
  repeat split; [by left | lia | done].
Qed.

(** X7 ([batch_predict], what it leaves alone). A call changes neither
    [RULES], nor the date, nor the price history, nor the counter of any
    other day. *)
Theorem batch_predict_frame (self : OptionsPredictor) (feats : list Feature)
    (w : World) :
  let w' := snd (batch_predict self feats w) in
  RULES w' = RULES w /\
  utc_today w' = utc_today w /\
  close_recent w' = close_recent w /\
  close_window w' = close_window w /\
  forall day : string, day <> utc_today w ->
    default ∅ (counter_doc w') !! day = default ∅ (counter_doc w) !! day.
Proof.
  intros w'. unfold w'. by rewrite batch_predict_world.
Qed.

(** X9 ([batch_predict] on an empty batch). The preview is still computed:
    its exception is the exception of the call; otherwise the answer is two
    empty lists, and neither the quota nor the backend is touched. *)
Theorem batch_predict_empty_batch (self : OptionsPredictor) (w : World) :
  batch_predict self [] w
  = match fst (_classical_predict self w) with
    | Ok _ => (Ok ([], []), w)
    | Raise e => (Raise e, w)
    end.
Proof.
  rewrite classical_predict_pure. cbn [fst].
  destruct (preview_of self w) as [[pred conf]|e] eqn:Hprev.
  - apply (batch_predict_unrefined self [] w pred conf Hprev). by left.
  - by apply batch_predict_preview_fails.
Qed.

End BatchExtras.

Section CircuitExtras.
Context `{External}.

Lemma build_circuit_priced (f : Feature) :
  (exists c, build_circuit f = Ok c) <-> priced f.
Proof.
  unfold priced, build_circuit, Py.getitem, Py.truediv, mbind, result_bind,
    mret, result_ret.
  destruct (f !! "spot_price") as [spot|].
  - destruct (f !! "strike_price") as [strike|].
    + destruct (Py.eq strike 0) eqn:Hz.
      * split; [intros [c Hc]; discriminate|].
        intros (s & k & _ & [= <-] & Hk). congruence.
      * split; [intros _; by exists spot, strike | eauto].
    + split; [intros [c Hc]; discriminate|].
      intros (s & k & _ & Hk & _). discriminate.
  - split; [intros [c Hc]; discriminate|].
    intros (s & k & Hs & _). discriminate.
Qed.

(** X10 ([build_circuit] over a batch). The circuits of a batch are all
    built exactly when every record has a spot price and a strike price
    that is not zero (negative zero counts as zero); there is then one
    circuit per record. *)
Theorem circuits_built_iff (feats : list Feature) :
  (exists cs, result_mapM build_circuit feats = Ok cs /\
              length cs = length feats)
  <-> Forall priced feats.
Proof.
  induction feats as [|f feats IH]; cbn [result_mapM].
  - split; [by constructor | intros _; by exists []].
  - split.
    + intros (cs & Hcs & _).
      destruct (build_circuit f) as [c|e] eqn:Hf; [|discriminate].
      destruct (result_mapM build_circuit feats) as [cs'|e] eqn:Hrest;
        [|discriminate].
      constructor.
      * apply build_circuit_priced. by exists c.
      * apply IH. exists cs'. split; [done|].
        by apply result_mapM_length in Hrest.
    + intros Hall. apply Forall_cons in Hall as [Hf Hrest].
      apply build_circuit_priced in Hf as [c ->].
      apply IH in Hrest as (cs & -> & Hlen).
      exists (c :: cs). split; [done|]. simpl. by rewrite Hlen.
Qed.

(** X11 ([build_circuit], what it reads). The rotation angle depends on the
    spot and strike prices only: two records that agree on both give the
    same angle, or the same exception, whatever their volatility, maturity
    and rate. *)
Theorem build_circuit_reads_prices_only (f1 f2 : Feature) :
  f1 !! "spot_price" = f2 !! "spot_price" ->
  f1 !! "strike_price" = f2 !! "strike_price" ->
  match build_circuit f1, build_circuit f2 with
  | Ok c1, Ok c2 => ry_theta c1 = ry_theta c2
  | Raise e1, Raise e2 => e1 = e2
  | _, _ => False
  end.
Proof.
  intros Hspot Hstrike.
  unfold build_circuit, Py.getitem, Py.truediv, mbind, result_bind, mret, result_ret.
  rewrite Hspot, Hstrike.
  destruct (f2 !! "spot_price") as [spot|]; [|done].
  destruct (f2 !! "strike_price") as [strike|]; [|done].
  by destruct (Py.eq strike 0).
Qed.

(** X12 ([_build_features] into [build_circuit]). The backtest's record for
    a close has that close as spot price and 1.05 times it as strike, so
    its circuit always builds unless the strike is zero, in which case the
    exception is [ZeroDivisionError]. *)
Theorem backtest_features_build (close_px : float) :
  exists f : Feature,
    _build_features close_px = [f] /\
    f !! "spot_price" = Some close_px /\
    f !! "strike_price" = Some (PrimFloat.mul close_px 1.05%float) /\
    forall e, build_circuit f = Raise e ->
      e = ZeroDivisionError /\ Py.eq (PrimFloat.mul close_px 1.05%float) 0 = true.
Proof.
  eexists. split; [reflexivity|].
  assert (Hspot : (list_to_map
      [("spot_price", close_px); ("strike_price", PrimFloat.mul close_px 1.05%float);
       ("volatility", 0.25%float); ("time_to_maturity", PrimFloat.div 7 365);
       ("risk_free_rate", 0.03%float)] : Feature) !! "spot_price" = Some close_px)
    by reflexivity.
  assert (Hstrike : (list_to_map
      [("spot_price", close_px); ("strike_price", PrimFloat.mul close_px 1.05%float);
       ("volatility", 0.25%float); ("time_to_maturity", PrimFloat.div 7 365);
       ("risk_free_rate", 0.03%float)] : Feature) !! "strike_price"
      = Some (PrimFloat.mul close_px 1.05%float))
    by reflexivity.
  split; [exact Hspot|]. split; [exact Hstrike|].
  intros e.
  unfold build_circuit, Py.getitem, Py.truediv, mbind, result_bind, mret, result_ret.
  rewrite Hspot, Hstrike.
  destruct (Py.eq _ 0); [|discriminate]. by intros [= <-].
Qed.

End CircuitExtras.

Section BackendExtras.
Context `{External}.

(** X13 (the fusion of [batch_predict]). For a histogram of the backend
    with [ones] and [zeros] counts out of 100 shots, the refined signal is
    [+1] exactly when [ones >= zeros] (a tie is bullish) and the refined
    confidence is exactly [|ones - zeros|] hundredths. *)
Theorem fusion_of_submitted (h : Histogram) :
  submitted h ->
  exists ones zeros : Z,
    h !! "1" = Some ones /\ h !! "0" = Some zeros /\
    0 <= ones /\ 0 <= zeros /\ ones + zeros = 100 /\
    fused_signal h = (if zeros <=? ones then 1 else -1) /\
    fused_confidence h = Py.hundredths false (Z.abs (ones - zeros)).
Proof.
  intros (ones & Hrange & ->). unfold shots_per_row in *.
  exists ones, (100 - ones).
  split; [by rewrite lookup_insert_ne, lookup_insert_eq|].
  split; [by rewrite lookup_insert_eq|].
  split; [lia|]. split; [lia|]. split; [lia|].
  assert (Hall : List.forallb
            (fun n : nat =>
               let k := Z.of_nat n in
               let h := (<["0" := 100 - k]> (<["1" := k]> ∅) : Histogram) in
               Z.eqb (fused_signal h) (if 100 - k <=? k then 1 else -1) &&
               PrimFloat.Leibniz.eqb (fused_confidence h)
                 (Py.hundredths false (Z.abs (k - (100 - k)))))
            (seq 0 101) = true) by (vm_compute; reflexivity).
  pose proof (proj1 (List.forallb_forall _ _) Hall (Z.to_nat ones)) as Hk.
  cbv beta zeta in Hk. rewrite Z2Nat.id in Hk by lia.
  apply andb_true_iff in Hk as [Hsig Hconf]; [|apply in_seq; lia].
  split; [by apply Z.eqb_eq | by apply FloatAxioms.Leibniz.eqb_spec].
Qed.

(** X14 ([submit]). When [submit] returns, there is one histogram per
    circuit, each with exactly the keys ["0"] and ["1"], non-negative
    counts that sum to the 100 repetitions, and nothing of the process but
    the random source has changed. *)
Theorem submit_histograms (cs : list Circuit) (w w' : World)
    (hists : list Histogram) :
  submit cs w = (Ok hists, w') ->
  length hists = length cs /\
  Forall (fun h : Histogram =>
            dom h = ({["0"; "1"]} : gset string) /\
            exists ones zeros : Z,
              h !! "1" = Some ones /\ h !! "0" = Some zeros /\
              0 <= ones /\ 0 <= zeros /\ ones + zeros = shots_per_row) hists /\
  w' = set_rng (rng w') w.
Proof.
  intros Hsub. destruct (submit_spec _ _ _ _ Hsub) as [Hlen Hall].
  split; [exact Hlen|]. split; [|apply (submit_frame _ _ _ _ Hsub)].
  eapply Forall_impl; [exact Hall|].
  intros h (ones & Hrange & ->). split.
  - rewrite !dom_insert_L, dom_empty_L. set_solver.
  - exists ones, (shots_per_row - ones).
    split; [by rewrite lookup_insert_ne, lookup_insert_eq|].
    split; [by rewrite lookup_insert_eq|]. lia.
Qed.

End BackendExtras.

Section BacktestExtras.
Context `{External}.

Lemma batch_predict_signals (self : OptionsPredictor) (feats : list Feature)
    (w w' : World) (preds : list Z) (confs : list float) :
  batch_predict self feats w = (Ok (preds, confs), w') ->
  Forall valid_signal preds.
Proof.
  intros Hrun.
  destruct (batch_predict_cases self feats w)
    as [(e & He & Hbp) | [(p & c & Hp & _ & Hbp)
                         | (p & c & Hp & Hne & Hge & Hbp)]];
    rewrite Hbp in Hrun.
  - discriminate.
  - inversion Hrun; subst. unfold preview_of in Hp.
    unfold mbind, result_bind, mret, result_ret in Hp.
    destruct (classical_score _ _) as [score|e]; [|discriminate].
    inversion Hp; subst. apply Forall_replicate, valid_signal_prediction.
  - discriminate.
Qed.

Lemma index_zero_elem {A} (l : list A) (a : A) :
  Py.index l 0 = Ok a -> l !! 0%nat = Some a.
Proof.
  change 0 with (Z.of_nat 0). rewrite index_nat.
  destruct (l !! 0%nat); congruence.
Qed.

Lemma index_nat_ok {A} (l : list A) (j : nat) (a : A) :
  Py.index l (Z.of_nat j) = Ok a -> l !! j = Some a.
Proof. rewrite index_nat. destruct (l !! j); congruence. Qed.

Lemma truediv_ok (x y q : float) :
  Py.truediv x y = Ok q -> Py.eq y 0 = false /\ q = PrimFloat.div x y.
Proof. unfold Py.truediv. destruct (Py.eq y 0); [discriminate|]. by intros [= <-]. Qed.

(** The rows of the loop of [simulate] that starts at position [k] and runs
    [n] times. *)
Lemma simulate_rows_shape (df : list float) (n : nat) :
  forall (k : nat) (w w' : World) (rows : list BacktestRow),
    simulate_rows df k n w = (Ok rows, w') ->
    length rows = n /\
    forall (i : nat) (row : BacktestRow), rows !! i = Some row ->
      row_date row = (k + i)%nat /\
      valid_signal (signal row) /\
      exists c0 c7 : float,
        df !! (k + i)%nat = Some c0 /\ df !! (k + i + 7)%nat = Some c7 /\
        Py.eq c0 0 = false /\
        ret_7d row = PrimFloat.div (PrimFloat.sub c7 c0) c0.
Proof.
  induction n as [|n IH]; intros k w w' rows; cbn [simulate_rows].
  - unfold mret, M_ret. intros Heq. inversion Heq; subst.
    split; [done|]. intros i row Hi. by rewrite lookup_nil in Hi.
  - unfold lift, mbind, M_bind, mret, M_ret.
    destruct (Py.index df (Z.of_nat k)) as [c0|e] eqn:H0; [|discriminate].
    destruct (Py.index df (Z.of_nat (k + 7))) as [c7|e] eqn:H7; [|discriminate].
    destruct (batch_predict default_predictor (_build_features c0) w)
      as [[[preds confs]|e] w1] eqn:Hbp; [|discriminate].
    destruct (Py.index preds 0) as [sig|e] eqn:Hsig; [|discriminate].
    destruct (Py.index confs 0) as [cf|e]; [|discriminate].
    destruct (Py.truediv _ c0) as [ret|e] eqn:Hret; [|discriminate].
    destruct (simulate_rows df (S k) n w1) as [[rows'|e] w2] eqn:Hrows;
      [|discriminate].
    intros Heq. inversion Heq; subst.
    destruct (IH _ _ _ _ Hrows) as [Hlen Hshape].
    split; [simpl; by rewrite Hlen|].
    intros [|i] row Hi; simpl in Hi.
    + inversion Hi; subst. cbn [row_date signal ret_7d].
      rewrite !Nat.add_0_r. split; [done|]. split.
      * pose proof (batch_predict_signals _ _ _ _ _ _ Hbp) as Hall.
        apply index_zero_elem in Hsig.
        eapply Forall_lookup_1 in Hall; [exact Hall | exact Hsig].
      * apply truediv_ok in Hret as [Hnz ->].
        exists c0, c7. repeat split; [by apply index_nat_ok | by apply index_nat_ok | done].
    + destruct (Hshape i row Hi) as (Hdate & Hvalid & c0' & c7' & Hl0 & Hl7 & Hnz & Hr).
      replace (k + S i)%nat with (S k + i)%nat by lia.
      split; [done|]. split; [done|]. by exists c0', c7'.
Qed.

Lemma simulate_shape_aux (tk : string) (days : Z) (w : World) :
  match simulate tk days w with
  | (Ok rows, w') =>
      (8 <= length (close_window w tk days))%nat /\
      length rows = (length (close_window w tk days) - 7)%nat
  | (Raise e, w') => True
  end.
Proof.
  unfold simulate, gets, lift, mbind, M_bind.
  destruct (Nat.ltb_spec (length (close_window w tk days)) 8) as [Hshort|Hlong];
    [done|].
  destruct (simulate_rows _ 0 _ w) as [[rows|e] w'] eqn:Hrows; [|done].
  by destruct (simulate_rows_shape _ _ _ _ _ _ Hrows) as [Hlen _].
Qed.

(** X15 ([simulate]). When [simulate] returns, the history has at least
    eight closes and there is one row per close but the last seven; row [i]
    is dated [i], its signal is [+1] or [-1], and its return is
    [(close[i+7] - close[i]) / close[i]] with [close[i]] not zero. On a
    history of fewer than eight closes it raises the [ValueError] of the
    source and changes nothing. *)
Theorem simulate_shape (tk : string) (days : Z) (w : World) :
  let df := close_window w tk days in
  match simulate tk days w with
  | (Ok rows, w') =>
      (8 <= length df)%nat /\
      length rows = (length df - 7)%nat /\
      forall (i : nat) (row : BacktestRow), rows !! i = Some row ->
        row_date row = i /\
        valid_signal (signal row) /\
        exists c0 c7 : float,
          df !! i = Some c0 /\ df !! (i + 7)%nat = Some c7 /\
          Py.eq c0 0 = false /\
          ret_7d row = PrimFloat.div (PrimFloat.sub c7 c0) c0
  | (Raise e, w') =>
      (length df < 8)%nat ->
      e = ValueError "Not enough historical data for simulation window." /\
      w' = w
  end.
Proof.
  intros df. unfold simulate, gets, lift, mbind, M_bind. fold df.
  destruct (Nat.ltb_spec (length df) 8) as [Hshort|Hlong].
  - by intros _.
  - destruct (simulate_rows df 0 (length df - 7) w) as [[rows|e] w'] eqn:Hrows;
      [|intros; lia].
    destruct (simulate_rows_shape _ _ _ _ _ _ Hrows) as [Hlen Hshape].
    split; [done|]. split; [done|]. intros i row Hi.
    apply (Hshape i row Hi).
Qed.

End BacktestExtras.

Section TuningExtras.
Context `{External}.

Lemma simulate_rows_usage (df : list float) (n : nat) :
  forall (k : nat) (w : World),
    let w' := snd (simulate_rows df k n w) in
    used_today w <= used_today w' <= used_today w + 100 * Z.of_nat n /\
    (used_today w <= _DAILY_BUDGET -> used_today w' <= _DAILY_BUDGET).
Proof.
  induction n as [|n IH]; intros k w; cbn [simulate_rows].
  - unfold mret, M_ret. cbn. lia.
  - unfold lift, mbind, M_bind, mret, M_ret.
    destruct (Py.index df (Z.of_nat k)) as [c0|e]; [|cbn; lia].
    destruct (Py.index df (Z.of_nat (k + 7))) as [c7|e]; [|cbn; lia].
    assert (Hstep : used_today w
                    <= used_today (snd (batch_predict default_predictor (_build_features c0) w))
                    <= used_today w + 100 /\
                    (used_today w <= _DAILY_BUDGET ->
                     used_today (snd (batch_predict default_predictor (_build_features c0) w))
                     <= _DAILY_BUDGET)).
    { rewrite batch_predict_world. lia. }
    destruct (batch_predict default_predictor (_build_features c0) w)
      as [[[preds confs]|e] w1]; cbn [snd] in Hstep; [|cbn; lia].
    destruct (Py.index preds 0) as [sig|e]; [|cbn; lia].
    destruct (Py.index confs 0) as [cf|e]; [|cbn; lia].
    destruct (Py.truediv _ c0) as [ret|e]; [|cbn; lia].
    specialize (IH (S k) w1). cbv zeta in IH.
    destruct (simulate_rows df (S k) n w1) as [[rows|e] w2]; cbn [snd] in *; lia.
Qed.

Lemma simulate_usage (tk : string) (days : Z) (w : World) :
  let rows := (length (close_window w tk days) - 7)%nat in
  let w' := snd (simulate tk days w) in
  used_today w <= used_today w' <= used_today w + 100 * Z.of_nat rows /\
  (used_today w <= _DAILY_BUDGET -> used_today w' <= _DAILY_BUDGET).
Proof.
  cbv zeta. unfold simulate, gets, lift, mbind, M_bind.
  destruct (_ <? 8)%nat; [cbn; lia|].
  apply (simulate_rows_usage (close_window w tk days)).
Qed.

(** X16 ([run_backtest], the quota). A backtest runs against the process's
    own shot counter: today's usage grows by at most 100 shots per simulated
    row, never decreases, and a usage within the daily budget stays within
    it, whether the backtest returns or raises. *)
Theorem backtest_quota_invariant (tk : string) (days : Z) (w : World) :
  let rows := (length (close_window w tk days) - 7)%nat in
  let w' := snd (run_backtest tk days w) in
  used_today w <= used_today w' <= used_today w + 100 * Z.of_nat rows /\
  (used_today w <= _DAILY_BUDGET -> used_today w' <= _DAILY_BUDGET).
Proof.
  cbv zeta.
  assert (Hsim : snd (run_backtest tk days w) = snd (simulate tk days w)).
  { unfold run_backtest, mbind, M_bind, mret, M_ret.
    by destruct (simulate tk days w) as [[r|e] w1]. }
  rewrite Hsim. apply simulate_usage.
Qed.

(** X17 ([objective], the quota). One trial of the tuner runs the backtest
    of AAPL over 91 days against the process's own counter: it may spend up
    to 100 shots per simulated row of today's budget, never more than the
    budget allows, and it leaves [RULES] as it found them. *)
Theorem objective_quota_invariant (trial : Trial) (target : float) (w : World) :
  let rows := (length (close_window w "AAPL" 91) - 7)%nat in
  let w' := snd (objective trial target w) in
  used_today w <= used_today w' <= used_today w + 100 * Z.of_nat rows /\
  (used_today w <= _DAILY_BUDGET -> used_today w' <= _DAILY_BUDGET) /\
  RULES w' = RULES w.
Proof.
  cbv zeta.
  assert (Hrun : snd (objective trial target w) = snd (run_backtest "AAPL" 91 w)).
  { unfold objective.
    by destruct (run_backtest "AAPL" 91 w) as [[[r hr]|e] w1]. }
  assert (Hsim : snd (run_backtest "AAPL" 91 w) = snd (simulate "AAPL" 91 w)).
  { unfold run_backtest, mbind, M_bind, mret, M_ret.
    by destruct (simulate "AAPL" 91 w) as [[r|e] w1]. }
  rewrite Hrun. split; [|split].
  - rewrite Hsim. apply (simulate_usage "AAPL" 91 w).
  - rewrite Hsim. apply (simulate_usage "AAPL" 91 w).
  - apply run_backtest_keeps_rules.
Qed.

Lemma nonzero_of_sign (x : float) :
  Py.gt x 0 = true \/ Py.lt x 0 = true -> Py.eq x 0 = false.
Proof.
  unfold Py.gt, Py.lt, Py.eq.
  rewrite !ltb_spec, FloatAxioms.eqb_spec.
  change (Prim2SF 0) with (S754_zero false).
  destruct (Prim2SF x) as [s|s| |s m e]; cbn.
  - intros [?|?]; discriminate.
  - by destruct s.
  - intros [?|?]; discriminate.
  - by destruct s.
Qed.

Lemma is_hit_nonzero (r : BacktestRow) :
  is_hit r = true -> Py.eq (ret_7d r) 0 = false.
Proof.
  unfold is_hit. intros Hhit. apply nonzero_of_sign.
  destruct (Py.gt (ret_7d r) 0); [by left|].
  destruct (Py.lt (ret_7d r) 0); [by right|].
  rewrite !andb_false_r in Hhit. discriminate Hhit.
Qed.

(** X18 ([run_backtest], the hit rate). When a backtest returns there is at
    least one row; the hit rate is exactly 1.0 when every row is a hit and
    exactly 0.0 when none is; and a row whose 7-day return is zero is never
    a hit, whatever its signal. *)
Theorem hit_rate_extremes (tk : string) (days : Z) (w w' : World)
    (rows : list BacktestRow) (hit_rate : float) :
  run_backtest tk days w = (Ok (rows, hit_rate), w') ->
  rows <> [] /\
  (Forall (fun r => is_hit r = true) rows -> hit_rate = 1%float) /\
  (Forall (fun r => is_hit r = false) rows -> hit_rate = 0%float) /\
  Forall (fun r => Py.eq (ret_7d r) 0 = true -> is_hit r = false) rows.
Proof.
  unfold run_backtest, mbind, M_bind, mret, M_ret.
  pose proof (simulate_shape_aux tk days w) as Hshape.
  destruct (simulate tk days w) as [[rs|e] w1]; [|discriminate].
  intros Heq. inversion Heq; subst. clear Heq.
  destruct Hshape as [Hlen8 Hlen].
  assert (Hne : rows <> []) by (intros ->; simpl in Hlen; lia).
  split; [exact Hne|].
  split; [|split]; [| |apply Forall_forall; intros r _ Hz;
    destruct (is_hit r) eqn:Hr; [|done];
    apply is_hit_nonzero in Hr; congruence].
  all: destruct rows as [|r0 rows]; [done|]; cbn [map]; intros Hall.
  - apply (bool_mean_all_true (is_hit r0 :: map is_hit rows)); [done|].
    change (Forall (fun b => b = true) (map is_hit (r0 :: rows))).
    by apply List.Forall_map.
  - apply (bool_mean_all_false (is_hit r0 :: map is_hit rows)); [done|].
    change (Forall (fun b => b = false) (map is_hit (r0 :: rows))).
    by apply List.Forall_map.
Qed.

End TuningExtras.

Section TuneExtras2.
Context `{External}.

(** The trial as [objective] leaves it, whether the backtest returns or
    raises. *)
Lemma objective_trial (trial trial' : Trial) (target : float)
    (r : result float) (w w' : World) :
  objective trial target w = ((trial', r), w') ->
  suggest_float trial' = suggest_float trial /\
  user_attrs trial' = with_sample trial (user_attrs trial).
Proof.
  unfold objective.
  destruct (run_backtest "AAPL" 91 w) as [[[rows hr]|e] w1];
    intros Heq; inversion Heq; subst; split; reflexivity.
Qed.

Lemma with_sample_lookup (trial : Trial) (attrs : gmap string float) :
  (forall (k : string) (lo hi : float),
     (k, (lo, hi)) ∈ SEARCH_SPACE ->
     with_sample trial attrs !! k = Some (suggest_float trial k lo hi)) /\
  (forall k : string,
     k ∉ (map fst SEARCH_SPACE) -> with_sample trial attrs !! k = attrs !! k).
Proof.
  unfold with_sample. split.
  - intros k lo hi Hin. unfold SEARCH_SPACE in Hin.
    repeat (apply elem_of_cons in Hin as [[= -> -> ->] | Hin];
            [by simplify_map_eq|]).
    by apply elem_of_nil in Hin.
  - intros k Hk. unfold SEARCH_SPACE in Hk. cbn [map fst] in Hk.
    rewrite !lookup_insert_ne; [done| | | | | |];
      intros <-; apply Hk; repeat (first [by left | right]).
Qed.

(** X19 ([objective], the user attributes). After a call of [objective],
    whether it returns a metric or raises, the trial has each of the six
    parameters of the search space recorded under its name with the value
    the sampler suggested, keeps every other attribute, and samples as
    before. *)
Theorem objective_records_sample (trial trial' : Trial) (target : float)
    (r : result float) (w w' : World) :
  objective trial target w = ((trial', r), w') ->
  (forall (k : string) (lo hi : float),
     (k, (lo, hi)) ∈ SEARCH_SPACE ->
     user_attrs trial' !! k = Some (suggest_float trial k lo hi)) /\
  (forall k : string,
     k ∉ (map fst SEARCH_SPACE) ->
     user_attrs trial' !! k = user_attrs trial !! k) /\
  suggest_float trial' = suggest_float trial.
Proof.
  intros Hobj. destruct (objective_trial _ _ _ _ _ _ Hobj) as [Hsug Hattrs].
  rewrite Hattrs.
  destruct (with_sample_lookup trial (user_attrs trial)) as [Hin Hout].
  repeat split; assumption.
Qed.

(** X20 ([tune.py] into [model.py]). Written by [main] as
    [best_params.json], the attributes of a returned trial that started
    without any are accepted by the next import of [model.py]: the import
    succeeds, [RULES] has the keys of the defaults and no other, the six
    tuned keys hold the trial's samples and the four thresholds keep their
    defaults. *)
Theorem tuned_params_round_trip (trial trial' : Trial) (target metric : float)
    (w w' : World) (files : gmap string override_text) :
  objective trial target w = ((trial', Ok metric), w') ->
  user_attrs trial = ∅ ->
  exists rules : gmap string float,
    load_rules (write_best_params trial' files) = Ok rules /\
    dom rules = dom DEFAULT_RULES /\
    (forall (k : string) (lo hi : float),
       (k, (lo, hi)) ∈ SEARCH_SPACE ->
       rules !! k = Some (suggest_float trial k lo hi)) /\
    (forall k : string,
       k ∉ (map fst SEARCH_SPACE) -> rules !! k = DEFAULT_RULES !! k).
Proof.
  intros Hobj Hempty.
  destruct (objective_trial _ _ _ _ _ _ Hobj) as [_ Hattrs].
  rewrite Hempty in Hattrs.
  destruct (with_sample_lookup trial ∅) as [Hin Hout].
  exists (user_attrs trial' ∪ DEFAULT_RULES).
  split; [|split; [|split]].
  - apply load_rules_first_override. left.
    unfold write_best_params. by rewrite lookup_insert_eq.
  - rewrite dom_union_L, Hattrs. unfold with_sample.
    rewrite !dom_insert_L, dom_empty_L.
    assert (Hdef : dom DEFAULT_RULES
              = ({["ma_trend_weight"; "rsi_extreme_weight"; "vol_rank_weight";
                   "momentum_3d_weight"; "rsi_high"; "rsi_low"; "iv_rank_high";
                   "iv_rank_low"; "angle_0"; "angle_1"]} : gset string)).
    { unfold DEFAULT_RULES. cbn [list_to_map foldr uncurry].
      rewrite !dom_insert_L, dom_empty_L. set_solver. }
    rewrite Hdef. set_solver.
  - intros k lo hi Hk. rewrite lookup_union, Hattrs, (Hin k lo hi Hk).
    by destruct (DEFAULT_RULES !! k).
  - intros k Hk. rewrite lookup_union, Hattrs, (Hout k Hk), lookup_empty.
    by destruct (DEFAULT_RULES !! k).
Qed.

End TuneExtras2.

Section ServingProperties.

Context `{External}.
Variable np_round3 : float -> float.

Lemma log_doc_lookup (c : string) (data : LogRecord) (db : Collections) :
  default [] (log_doc c data db !! c) = default [] (db !! c) ++ [data] /\
  forall c' : string, c' <> c -> log_doc c data db !! c' = db !! c'.
Proof.
  unfold log_doc. split.
  - by rewrite lookup_insert_eq.
  - intros c' Hc. by rewrite lookup_insert_ne.
Qed.

(** X22 ([SelfAssessment.log]). After any sequence of calls the in-memory
    log is the old log followed by one record per call, in the order of the
    calls, and the record of a call holds the time of the call, its
    prediction, its actual value, whether the two are equal, and its
    confidence; the Firestore collection [prediction_logs] has grown by the
    same records and no other collection has changed; the pipeline's state
    is untouched; and [evaluate] counts every record. *)
Theorem assessment_log_invariant
    (entries : list (string * Feature * Z * Z * float)) (s : Server) :
  let s' := log_all entries s in
  let new :=
    map (fun e : string * Feature * Z * Z * float =>
           let '(now, _, pred, actual, conf) := e in
           {| log_ts := now; log_pred := pred; log_actual := actual;
              log_correct := (pred =? actual); log_conf := conf |})
        entries in
  evaluator_logs s' = evaluator_logs s ++ new /\
  default [] (srv_db s' !! "prediction_logs")
  = default [] (srv_db s !! "prediction_logs") ++ new /\
  (forall c : string, c <> "prediction_logs" -> srv_db s' !! c = srv_db s !! c) /\
  srv_world s' = srv_world s /\
  Forall (fun r => log_correct r = true <-> log_pred r = log_actual r) new /\
  total (assessment_evaluate np_round3 (evaluator_logs s'))
  = Z.of_nat (length (evaluator_logs s) + length entries).
Proof.
  revert s.
  induction entries as [|[[[[now features] pred] actual] conf] entries IH];
    intros s; cbn [log_all map].
  - cbv zeta. rewrite !app_nil_r, Nat.add_0_r.
    repeat split; try done.
    unfold assessment_evaluate. by destruct (evaluator_logs s).
  - set (rec := {| log_ts := now; log_pred := pred; log_actual := actual;
                   log_correct := (pred =? actual); log_conf := conf |}).
    set (s1 := assessment_log now features pred actual conf s).
    specialize (IH s1). cbv zeta in IH |- *.
    destruct IH as (Hlogs & Hdb & Hother & Hworld & Hcorrect & Htotal).
    assert (H1 : evaluator_logs s1 = evaluator_logs s ++ [rec]) by reflexivity.
    split; [|split; [|split; [|split; [|split]]]].
    + by rewrite Hlogs, H1, <- app_assoc.
    + rewrite Hdb.
      assert (Hdb1 : default [] (srv_db s1 !! "prediction_logs")
                     = default [] (srv_db s !! "prediction_logs") ++ [rec])
        by exact (proj1 (log_doc_lookup "prediction_logs" rec (srv_db s))).
      by rewrite Hdb1, <- app_assoc.
    + intros c Hc. rewrite (Hother c Hc).
      exact (proj2 (log_doc_lookup "prediction_logs" rec (srv_db s)) c Hc).
    + by rewrite Hworld.
    + constructor; [|exact Hcorrect]. cbn. apply Z.eqb_eq.
    + rewrite Htotal, H1, length_app. cbn [length]. f_equal. lia.
Qed.

(** X23 ([SelfAssessment.evaluate]). On a log that is not empty the total
    is the number of records, the average confidence is present, and the
    accuracy is the rounding of exactly 1.0 when every record is correct
    and of exactly 0.0 when none is. *)
Theorem evaluate_accuracy_extremes (logs : list LogRecord) :
  logs <> [] ->
  (Forall (fun r => log_correct r = true) logs ->
   accuracy (assessment_evaluate np_round3 logs) = Some (np_round3 1)) /\
  (Forall (fun r => log_correct r = false) logs ->
   accuracy (assessment_evaluate np_round3 logs) = Some (np_round3 0)) /\
  total (assessment_evaluate np_round3 logs) = Z.of_nat (length logs) /\
  is_Some (avg_confidence (assessment_evaluate np_round3 logs)).
Proof.
  intros Hne. destruct logs as [|r logs]; [done|].
  unfold assessment_evaluate. cbn [accuracy total avg_confidence].
  repeat split; [| |eauto].
  - intros Hall. do 2 f_equal.
    apply bool_mean_all_true; [done|]. by apply List.Forall_map.
  - intros Hall. do 2 f_equal.
    apply bool_mean_all_false; [done|]. by apply List.Forall_map.
Qed.

Lemma handle_keeps_evaluator (rq : request) (s : Server) :
  evaluator_logs (snd (handle np_round3 rq s)) = evaluator_logs s /\
  srv_db (snd (handle np_round3 rq s)) = srv_db s.
Proof.
  destruct rq as [body|]; cbn [handle]; [|done].
  unfold app_predict. destruct (Py.getitem body "features") as [feats|e]; [|done].
  destruct (batch_predict default_predictor feats (srv_world s)) as [[[p c]|e] w'];
    done.
Qed.

(** X24 ([app.py], the evaluator). No request ever logs: whatever the
    sequence of requests, the evaluator's log and the Firestore collections
    stay as they were, every request gets one response, and a server that
    starts with an empty log answers every [GET /evaluate] with a total of
    0 and no accuracy. *)
Theorem app_never_logs (rqs : list request) (s : Server) :
  let s' := snd (serve np_round3 rqs s) in
  evaluator_logs s' = evaluator_logs s /\
  srv_db s' = srv_db s /\
  length (fst (serve np_round3 rqs s)) = length rqs /\
  (evaluator_logs s = [] ->
   forall summary : Summary,
     Evaluation summary ∈ fst (serve np_round3 rqs s) ->
     summary = {| total := 0; accuracy := None; avg_confidence := None |}).
Proof.
  revert s. induction rqs as [|rq rqs IH]; intros s; cbn [serve].
  - cbn. repeat split. intros _ summary Hin. by apply elem_of_nil in Hin.
  - destruct (handle_keeps_evaluator rq s) as (Hlogs & Hdb).
    destruct (handle np_round3 rq s) as [r s1] eqn:Hh. cbn [snd] in Hlogs, Hdb.
    specialize (IH s1). cbv zeta in IH.
    destruct (serve np_round3 rqs s1) as [rs s2]. cbn [fst snd] in *.
    destruct IH as (IHlogs & IHdb & IHlen & IHeval).
    split; [congruence|]. split; [congruence|]. split; [cbn; by f_equal|].
    intros Hfresh summary Hin.
    apply elem_of_cons in Hin as [Hhead | Htail].
    + rewrite <- Hhead in Hh. clear Hhead.
      destruct rq as [body|]; cbn [handle] in Hh.
      * unfold app_predict in Hh.
        destruct (Py.getitem body "features") as [feats|e];
          [|discriminate].
        destruct (batch_predict default_predictor feats (srv_world s))
          as [[[p c]|e] w']; discriminate.
      * unfold app_evaluate in Hh. rewrite Hfresh in Hh. cbn in Hh.
        by inversion Hh.
    + apply IHeval; [congruence | exact Htail].
Qed.

End ServingProperties.

Section ServingProperties2.

Context `{External}.
Variable np_round3 : float -> float.

Lemma batch_predict_lengths (self : OptionsPredictor) (feats : list Feature)
    (w w' : World) (preds : list Z) (confs : list float) :
  batch_predict self feats w = (Ok (preds, confs), w') ->
  length preds = length feats /\ length confs = length feats.
Proof.
  intros Hrun.
  destruct (batch_predict_cases self feats w)
    as [(e & He & Hbp) | [(p & c & Hp & _ & Hbp)
                         | (p & c & Hp & Hne & Hge & Hbp)]];
    rewrite Hbp in Hrun.
  - discriminate.
  - inversion Hrun; subst. by rewrite !length_replicate.
  - discriminate.
Qed.

Lemma handle_step (rq : request) (s : Server) :
  let r := fst (handle np_round3 rq s) in
  let s' := snd (handle np_round3 rq s) in
  answers rq r /\
  used_today (srv_world s) <= used_today (srv_world s') /\
  (used_today (srv_world s) <= _DAILY_BUDGET ->
   used_today (srv_world s') <= _DAILY_BUDGET) /\
  RULES (srv_world s') = RULES (srv_world s).
Proof.
  destruct rq as [body|]; cbn [handle]; [|cbn; repeat split; lia].
  unfold app_predict, Py.getitem.
  destruct (body !! "features") as [feats|] eqn:Hbody;
    [|cbn; repeat split; lia].
  pose proof (batch_predict_keeps_rules default_predictor feats (srv_world s)) as Hr.
  assert (Hused : used_today (srv_world s)
                  <= used_today (snd (batch_predict default_predictor feats (srv_world s)))
                  /\ (used_today (srv_world s) <= _DAILY_BUDGET ->
                      used_today (snd (batch_predict default_predictor feats (srv_world s)))
                      <= _DAILY_BUDGET)).
  { rewrite batch_predict_world. lia. }
  destruct (batch_predict default_predictor feats (srv_world s))
    as [[[preds confs]|e] w'] eqn:Hbp; cbn [fst snd srv_world] in *.
  - split; [|by repeat split; try apply Hused].
    exists feats. split; [done|].
    destruct (batch_predict_lengths _ _ _ _ _ _ Hbp) as [Hp Hc].
    repeat split; [done | done |].
    apply (batch_predict_signals _ _ _ _ _ _ Hbp).
  - split; [|by repeat split; try apply Hused].
    cbn. rewrite Hbody. discriminate.
Qed.

(** X25 ([app.py], the service). Over any sequence of requests: a
    [POST /predict] that is answered gets one signal and one confidence per
    record of its body, each signal [+1] or [-1]; a body without
    ["features"] gets a [KeyError]; a [GET /evaluate] always gets an
    evaluation; today's usage never decreases and never passes a budget it
    was within; and [RULES] never changes. *)
Theorem app_serve_invariant (rqs : list request) (s : Server) :
  let rs := fst (serve np_round3 rqs s) in
  let s' := snd (serve np_round3 rqs s) in
  Forall2 answers rqs rs /\
  used_today (srv_world s) <= used_today (srv_world s') /\
  (used_today (srv_world s) <= _DAILY_BUDGET ->
   used_today (srv_world s') <= _DAILY_BUDGET) /\
  RULES (srv_world s') = RULES (srv_world s).
Proof.
  revert s. induction rqs as [|rq rqs IH]; intros s; cbn [serve].
  - cbn. repeat split; [apply Forall2_nil_2 | lia | done].
  - pose proof (handle_step rq s) as Hstep. cbv zeta in Hstep.
    destruct (handle np_round3 rq s) as [r s1]. cbn [fst snd] in Hstep.
    specialize (IH s1). cbv zeta in IH.
    destruct (serve np_round3 rqs s1) as [rs s2]. cbn [fst snd] in *.
    destruct Hstep as (Hans & Hmono & Hbudget & Hrules).
    destruct IH as (IHans & IHmono & IHbudget & IHrules).
    repeat split; [by constructor | lia | auto | congruence].
Qed.

End ServingProperties2.

Section DefaultRulesExtras.
Context `{External}.

Lemma default_score_escalates_bearish (df : list float) (score : float) :
  classical_score DEFAULT_RULES df = Ok score ->
  Py.ge (confidence_of score) QPU_THRESHOLD = true ->
  prediction_of score = -1.
Proof.
  unfold classical_score.
  unfold mbind, result_bind, mret, result_ret.
  destruct (Py.index df (-1)) as [close|e]; [|discriminate].
  destruct (Py.index df (-4)) as [c4|e]; [|discriminate].
  destruct (Py.truediv _ c4) as [mom3d|e]; [|discriminate].
  destruct (rsi df 14) as [rsi14|e]; [|discriminate].
  change (Py.getitem DEFAULT_RULES "ma_trend_weight") with (Ok 0.4%float : result float).
  change (Py.getitem DEFAULT_RULES "momentum_3d_weight") with (Ok 0.1%float : result float).
  change (Py.getitem DEFAULT_RULES "rsi_high") with (Ok 70%float : result float).
  change (Py.getitem DEFAULT_RULES "rsi_low") with (Ok 30%float : result float).
  change (Py.getitem DEFAULT_RULES "rsi_extreme_weight") with (Ok 0.3%float : result float).
  change (Py.getitem DEFAULT_RULES "iv_rank_high") with (Ok 0.7%float : result float).
  change (Py.getitem DEFAULT_RULES "iv_rank_low") with (Ok 0.3%float : result float).
  change (Py.getitem DEFAULT_RULES "vol_rank_weight") with (Ok 0.2%float : result float).
  cbv beta iota zeta.
  destruct (Py.gt close (ma df 10)), (Py.gt mom3d 0), (Py.ge rsi14 70), (Py.le rsi14 30);
    intros Hs; vm_compute in Hs; inversion Hs; subst score;
    intros Hge; vm_compute in Hge; try discriminate Hge;
    vm_compute; reflexivity.
Qed.

(** X26 ([_classical_predict] under the default rules). With the rules the
    source ships, only a bearish preview can reach the escalation threshold
    of 0.75: whenever the confidence of the preview is at least 0.75, its
    signal is [-1]. *)
Theorem default_rules_escalate_only_bearish (self : OptionsPredictor)
    (w : World) (pred : Z) (conf : float) :
  RULES w = DEFAULT_RULES ->
  fst (_classical_predict self w) = Ok (pred, conf) ->
  Py.ge conf QPU_THRESHOLD = true ->
  pred = -1.
Proof.
  intros Hrules Hprev Hge.
  rewrite classical_predict_pure in Hprev. cbn [fst] in Hprev.
  unfold preview_of in Hprev. rewrite Hrules in Hprev.
  unfold mbind, result_bind, mret, result_ret in Hprev.
  destruct (classical_score DEFAULT_RULES _) as [score|e] eqn:Hs; [|discriminate].
  inversion Hprev; subst.
  by apply (default_score_escalates_bearish _ _ Hs).
Qed.

End DefaultRulesExtras.

Section ShortHistoryExtras.
Context `{External}.

(** X28 ([objective] on a short history). When the 91-day window of AAPL
    has fewer than eight closes, the backtest raises the [ValueError] of
    [simulate] and leaves the process state as it was; the handler of
    [objective] passes the exception on, and the trial is left with the six
    sampled values recorded as user attributes, which were set before the
    backtest ran. *)
Theorem objective_short_history (trial : Trial) (target : float) (w : World) :
  (length (close_window w "AAPL" 91) < 8)%nat ->
  run_backtest "AAPL" 91 w
  = (Raise (ValueError "Not enough historical data for simulation window."), w) /\
  exists trial' : Trial,
    objective trial target w
    = ((trial',
        Raise (ValueError "Not enough historical data for simulation window.")),
       w) /\
    suggest_float trial' = suggest_float trial /\
    (forall (k : string) (lo hi : float),
       (k, (lo, hi)) ∈ SEARCH_SPACE ->
       user_attrs trial' !! k = Some (suggest_float trial k lo hi)) /\
    (forall k : string,
       k ∉ (map fst SEARCH_SPACE) ->
       user_attrs trial' !! k = user_attrs trial !! k).
Proof.
  intros Hshort.
  assert (Hsim : simulate "AAPL" 91 w
                 = (Raise (ValueError "Not enough historical data for simulation window."), w)).
  { unfold simulate, gets, lift, mbind, M_bind.
    by destruct (Nat.ltb_spec (length (close_window w "AAPL" 91)) 8) as [_|?];
      [|lia]. }
  assert (Hrun : run_backtest "AAPL" 91 w
                 = (Raise (ValueError "Not enough historical data for simulation window."), w)).
  { unfold run_backtest, mbind, M_bind. by rewrite Hsim. }
  split; [exact Hrun|].
  eexists. split; [unfold objective; rewrite Hrun; reflexivity|].
  split; [reflexivity|].
  apply (with_sample_lookup trial (user_attrs trial)).
Qed.

End ShortHistoryExtras.

Section RefinementExtras.
Context `{External}.

(** X29 (the refinement step of [batch_predict], lines 119-129, for a batch
    whose every record is selected). When the step returns there is one
    fused result per record, in the order of the batch: entry [i] of both
    lists is computed from the histogram of the repetitions of the circuit
    built from record [i], and from nothing else. *)
Theorem refine_all_length_order (feats : list Feature) (w w' : World)
    (preds : list Z) (confs : list float) :
  refine_all feats w = (Ok (preds, confs), w') ->
  length preds = length feats /\
  length confs = length feats /\
  forall (i : nat) (f : Feature), feats !! i = Some f ->
    exists (c : Circuit) (ms : list bool) (wi wi' : World),
      build_circuit f = Ok c /\
      simulator_run c (Z.to_nat shots_per_row) wi = (Ok ms, wi') /\
      preds !! i = Some (fused_signal (outcome_histogram ms)) /\
      confs !! i = Some (fused_confidence (outcome_histogram ms)).
Proof.
  intros Href.
  destruct (refine_all_ok _ _ _ _ _ Href) as (cs & hists & Hcs & Hsub & -> & ->).
  destruct (submit_spec _ _ _ _ Hsub) as [Hlen _].
  pose proof (result_mapM_length _ _ _ Hcs) as Hlen'.
  rewrite !length_map. repeat split; [lia | lia |].
  intros i f Hi.
  destruct (result_mapM_lookup _ _ _ Hcs i f Hi) as (c & Hc & Hci).
  destruct (submit_lookup _ _ _ _ Hsub i c Hci) as (ms & wi & wi' & Hrun & Hhi).
  exists c, ms, wi, wi'. repeat split; [done | done | |].
  - by rewrite list_lookup_fmap, Hhi.
  - by rewrite list_lookup_fmap, Hhi.
Qed.

End RefinementExtras.

Section BacktestSignalExtras.
Context `{External}.

Lemma simulate_rows_constant (df : list float) (n : nat) :
  forall (k : nat) (w w' : World) (rows : list BacktestRow),
    simulate_rows df k n w = (Ok rows, w') ->
    w' = w /\
    (rows = [] \/
     exists (pred : Z) (conf : float),
       preview_of default_predictor w = Ok (pred, conf) /\
       Py.ge conf QPU_THRESHOLD = false /\
       Forall (fun r => signal r = pred) rows).
Proof.
  induction n as [|n IH]; intros k w w' rows; cbn [simulate_rows].
  - unfold mret, M_ret. intros Heq. inversion Heq; subst. split; [done | by left].
  - unfold lift, mbind, M_bind, mret, M_ret.
    destruct (Py.index df (Z.of_nat k)) as [c0|e]; [|discriminate].
    destruct (Py.index df (Z.of_nat (k + 7))) as [c7|e]; [|discriminate].
    destruct (batch_predict_cases default_predictor (_build_features c0) w)
      as [(e & _ & ->) | [(p & c & Hp & Hsel & ->) | (p & c & _ & _ & _ & ->)]];
      [discriminate | | discriminate].
    destruct Hsel as [Hnil | Hge]; [discriminate Hnil|].
    cbn [_build_features length replicate].
    change (Py.index [p] 0) with (Ok p : result Z).
    change (Py.index [c] 0) with (Ok c : result float).
    destruct (Py.truediv _ c0) as [ret|e]; [|discriminate].
    destruct (simulate_rows df (S k) n w) as [[rows'|e] w2] eqn:Hrows;
      [|discriminate].
    intros Heq. inversion Heq; subst.
    destruct (IH _ _ _ _ Hrows) as [-> Hrest].
    split; [done|]. right. exists p, c. split; [done|]. split; [done|].
    constructor; [done|].
    destruct Hrest as [-> | (p' & c' & Hp' & _ & Hall)]; [constructor|].
    rewrite Hp in Hp'. by inversion Hp'; subst.
Qed.

(** X30 ([simulate], the signal of a row). A row's signal is the preview
    of the shared predictor, computed from the latest history of the
    predictor's own ticker and not from the row's date or close. So when
    [simulate] returns, the process state is as it was, the confidence of
    the preview does not reach the escalation threshold, and every row
    carries the same signal: the one [_classical_predict] gives in that
    state. *)
Theorem simulate_constant_signal (tk : string) (days : Z) (w w' : World)
    (rows : list BacktestRow) :
  simulate tk days w = (Ok rows, w') ->
  w' = w /\
  exists (pred : Z) (conf : float),
    fst (_classical_predict default_predictor w) = Ok (pred, conf) /\
    Py.ge conf QPU_THRESHOLD = false /\
    Forall (fun r => signal r = pred) rows.
Proof.
  unfold simulate, gets, lift, mbind, M_bind.
  destruct (Nat.ltb_spec (length (close_window w tk days)) 8) as [?|Hlong];
    [discriminate|].
  intros Hrows.
  destruct (simulate_rows_shape _ _ _ _ _ _ Hrows) as [Hlen _].
  destruct (simulate_rows_constant _ _ _ _ _ _ Hrows) as [-> Hconst].
  split; [done|]. rewrite classical_predict_pure. cbn [fst].
  destruct Hconst as [-> | Hconst]; [simpl in Hlen; lia | exact Hconst].
Qed.

End BacktestSignalExtras.

(* ================================================================== *)
(** * 5. The properties at concrete inputs *)
(* ================================================================== *)

(** ** Python's float builtins at known values *)

Example round2_half_even : Py.round2 0.125%float = 0.12%float.
Proof. vm_compute. reflexivity. Qed.

Example round2_binary_value :
  Py.round2 2.675%float = 2.67%float /\ Py.round2 0.675%float = 0.68%float.
Proof. split; vm_compute; reflexivity. Qed.

Example round2_keeps_nan : Py.round2 nan = nan.
Proof. vm_compute. reflexivity. Qed.

Example min_keeps_nan :
  Py.min nan 1 = nan /\ Py.min 1.4%float 1 = 1%float /\
  Py.min 0.42%float 1 = 0.42%float.
Proof. repeat split; vm_compute; reflexivity. Qed.

Example int_truediv_values :
  Py.int_truediv 66 100 = Ok 0.66%float /\
  Py.int_truediv 1 3 = Ok (PrimFloat.div 1 3) /\
  Py.int_truediv 5 0 = Raise ZeroDivisionError.
Proof. repeat split; vm_compute; reflexivity. Qed.

(** ** The quota at known values *)

(** C1 at a reservation of 100 shots on a fresh day, and of 300 shots when
    250 are left: both calls raise, and the usage is what it was. *)
Example use_shots_scenarios :
  fst (use_shots 100 world_calm)
  = Raise (TypeError "'Transaction' object is not callable") /\
  used_today (snd (use_shots 100 world_calm)) = 0 /\
  fst (use_shots 300 world_tight)
  = Raise (TypeError "'Transaction' object is not callable") /\
  used_today (snd (use_shots 300 world_tight)) = 2250.
Proof. repeat split; vm_compute; reflexivity. Qed.

(** The transaction body on the same inputs, had it been run: 100 shots are
    granted on a fresh day; with 250 left, 300 are denied and 250 granted. *)
Example txn_scenarios :
  fst (txn 100 "2025-06-01" world_calm) = Ok true /\
  used_today (snd (txn 100 "2025-06-01" world_calm)) = 100 /\
  fst (txn 300 "2025-06-01" world_tight) = Ok false /\
  used_today (snd (txn 300 "2025-06-01" world_tight)) = 2250 /\
  fst (txn 250 "2025-06-01" world_tight) = Ok true /\
  used_today (snd (txn 250 "2025-06-01" world_tight)) = 2500.
Proof. repeat split; vm_compute; reflexivity. Qed.

(** ** The classical scorer at known values *)

Example preview_scenarios :
  fst (_classical_predict default_predictor world_calm) = Ok (1, 0.42%float) /\
  fst (_classical_predict default_predictor world_tight) = Ok (-1, 0.9%float) /\
  fst (_classical_predict default_predictor world_rise) = Ok (1, 0%float) /\
  fst (_classical_predict default_predictor world_down) = Ok (-1, 1%float).
Proof. repeat split; vm_compute; reflexivity. Qed.

(** C2 at four calls on a fresh day: none returns [True], and the usage
    stays at zero. *)
Lemma granted_sum_within_budget_witness :
  used_today (world_of (E:=sim_mod3) DEFAULT_RULES None closes_rise 0%nat) = 0 /\
  length (fst (reserve_seq [1000; 2000; 1500; 1]
                 (world_of (E:=sim_mod3) DEFAULT_RULES None closes_rise 0%nat)))
  = 4%nat /\
  granted_sum [1000; 2000; 1500; 1]
    (fst (reserve_seq [1000; 2000; 1500; 1]
            (world_of (E:=sim_mod3) DEFAULT_RULES None closes_rise 0%nat)))
  = used_today
      (snd (reserve_seq [1000; 2000; 1500; 1]
              (world_of (E:=sim_mod3) DEFAULT_RULES None closes_rise 0%nat))) /\
  granted_sum [1000; 2000; 1500; 1]
    (fst (reserve_seq [1000; 2000; 1500; 1]
            (world_of (E:=sim_mod3) DEFAULT_RULES None closes_rise 0%nat)))
  <= 2500.
Proof.
  split; [reflexivity|].
  apply (granted_sum_within_budget [1000; 2000; 1500; 1]
           (world_of (E:=sim_mod3) DEFAULT_RULES None closes_rise 0%nat)).
  reflexivity.
Defined.

(** ** Scenarios of [batch_predict] *)

(** An empty batch returns two empty lists and touches nothing. *)
Example scenario_empty_batch :
  batch_predict default_predictor [] world_calm = (Ok ([], []), world_calm).
Proof.
  apply (batch_predict_unrefined default_predictor [] world_calm 1 0.42%float);
    [vm_compute; reflexivity | by left].
Qed.

(** C3 at a batch of one, and at a batch of three whose preview selects it:
    the reservation raises, with 1500 shots used before and after. *)
Example scenario_batch_of_one :
  fst (batch_predict default_predictor (take 1 feats5) world_calm)
  = Ok ([1], [0.42%float]).
Proof. vm_compute. reflexivity. Qed.

Example scenario_selected :
  fst (batch_predict default_predictor feats3 world_roomy)
  = Raise (TypeError "'Transaction' object is not callable") /\
  used_today (snd (batch_predict default_predictor feats3 world_roomy)) = 1500.
Proof. split; vm_compute; reflexivity. Qed.

(** C4 at five records with a preview confidence of 0.42, which get the
    preview, and at three records with a preview confidence of 0.9 when 250
    shots are left: the call raises instead of returning the preview. *)
Lemma batch_predict_fallback_witness :
  batch_predict default_predictor feats5 world_calm
  = (Ok (replicate 5 1, replicate 5 0.42%float), world_calm) /\
  fst (_classical_predict default_predictor world_tight) = Ok (-1, 0.9%float) /\
  used_today world_tight = 2250 /\
  batch_predict default_predictor feats3 world_tight
  = (Raise (TypeError "'Transaction' object is not callable"), world_tight).
Proof.
  assert (Htight : fst (_classical_predict default_predictor world_tight)
                   = Ok (-1, 0.9%float)) by (vm_compute; reflexivity).
  split; [|split; [exact Htight | split; [reflexivity|]]].
  - assert (Hprev : fst (_classical_predict default_predictor world_calm)
                    = Ok (1, 0.42%float)) by (vm_compute; reflexivity).
    destruct (batch_predict_fallback default_predictor feats5 world_calm
                1 0.42%float Hprev) as (_ & Hnone & _).
    apply Hnone. repeat constructor.
  - destruct (batch_predict_fallback default_predictor feats3 world_tight
                (-1) 0.9%float Htight) as (_ & _ & Hsel).
    apply Hsel. vm_compute. discriminate.
Defined.




(** C7 as the spec states it fails on a NaN weight: the confidence of every
    record is NaN, which is not in [[0, 1]]. *)
Lemma nan_confidence_counterexample :
  fst (batch_predict default_predictor feats3 world_nan)
  = Ok ([-1; -1; -1], [nan; nan; nan]) /\
  ~ unit_interval nan.
Proof.
  split; [vm_compute; reflexivity|].
  intros [Hlow _]. vm_compute in Hlow. discriminate.
Qed.

Lemma batch_predict_in_range_witness :
  Forall valid_signal (replicate 5 1) /\
  Forall unit_interval (replicate 5 0.42%float).
Proof.
  set (r := batch_predict default_predictor feats5 world_calm).
  assert (Hfst : fst r = Ok (replicate 5 1, replicate 5 0.42%float))
    by (vm_compute; reflexivity).
  assert (Hrun : r = (Ok (replicate 5 1, replicate 5 0.42%float), snd r))
    by (rewrite <- Hfst; apply surjective_pairing).
  destruct (batch_predict_in_range default_predictor feats5 world_calm (snd r)
              (replicate 5 1) (replicate 5 0.42%float) Hrun) as (Hsig & Hconf & _).
  split; [exact Hsig|]. apply Hconf.
  intros score Hscore. vm_compute in Hscore. inversion Hscore. reflexivity.
Defined.

(** C8 as the spec states it fails on a malformed [best_params.json]: the
    import raises, it does not fall back to the defaults. *)
Lemma load_rules_counterexample :
  load_rules files_malformed = Raise JSONDecodeError /\
  load_rules files_malformed <> Ok DEFAULT_RULES.
Proof.
  assert (Hraise : load_rules files_malformed = Raise JSONDecodeError)
    by (vm_compute; reflexivity).
  split; [exact Hraise|]. rewrite Hraise. discriminate.
Qed.

Lemma load_rules_malformed_raises_witness :
  files_malformed !! "best_params.json" = Some NotJson /\
  load_rules files_malformed = Raise JSONDecodeError.
Proof.
  assert (Hbest : files_malformed !! "best_params.json" = Some NotJson)
    by (vm_compute; reflexivity).
  split; [exact Hbest|].
  apply (load_rules_malformed_raises files_malformed). left. exact Hbest.
Defined.

(** C9 at a trial that samples a trend weight of -0.5 in a rising market:
    the trial reports the metric of the default rules (hit rate 1), not the
    metric of its candidate (hit rate 0), and [RULES] is still the defaults
    when it ends. *)
Example objective_candidate_unused :
  trial_metric (fst (objective trial_bear 0.1 world_rise))
  = Ok (PrimFloat.sub 1 (PrimFloat.abs (PrimFloat.sub 0.1 1))) /\
  trial_metric (fst (objective trial_bear 0.1 world_rise_bear))
  = Ok (PrimFloat.sub 0 (PrimFloat.abs (PrimFloat.sub 0.1 0))) /\
  RULES (snd (objective trial_bear 0.1 world_rise)) = DEFAULT_RULES /\
  RULES world_rise_bear !! "ma_trend_weight" = Some (-0.5)%float.
Proof. repeat split; vm_compute; reflexivity. Qed.

(** C10 at a batch whose preview confidence is 0.9, with room in the
    budget. *)
Lemma escalation_all_or_none_witness :
  (select_qpu (replicate 3 0.9%float) = seq 0 3 \/
   select_qpu (replicate 3 0.9%float) = []) /\
  forall (preds : list Z) (confs : list float) (w' : World),
    batch_predict default_predictor feats3 world_roomy = (Ok (preds, confs), w') ->
    (preds = replicate 3 (-1) /\ confs = replicate 3 0.9%float) \/
    (exists hists : list Histogram,
        length hists = 3%nat /\ Forall submitted hists /\
        preds = map fused_signal hists /\
        confs = map fused_confidence hists).
Proof.
  apply (escalation_all_or_none default_predictor feats3 world_roomy (-1) 0.9%float).
  vm_compute. reflexivity.
Defined.

(** ** The further properties at known values *)

(** X1 at a [rules.json] that sets the trend weight alone. *)
Lemma load_rules_merges_override_witness :
  exists rules : gmap string float,
    load_rules {[ "rules.json" := JsonObject {[ "ma_trend_weight" := 0.52%float ]} ]}
    = Ok rules /\
    forall k : string,
      rules !! k
      = match ({[ "ma_trend_weight" := 0.52%float ]} : gmap string float) !! k with
        | Some v => Some v
        | None => DEFAULT_RULES !! k
        end.
Proof.
  apply load_rules_merges_override. right. split; vm_compute; reflexivity.
Defined.

(** X3 at three closes under the default rules. *)
Lemma complete_rules_scorer_failures_witness :
  @classical_score sim_mod3 DEFAULT_RULES [1; 2; 3]%float = Raise IndexError /\
  ((IndexError = IndexError /\ (length [1; 2; 3]%float < 4)%nat) \/
   (IndexError = ZeroDivisionError /\ (4 <= length [1; 2; 3]%float)%nat)).
Proof.
  assert (Hraise : @classical_score sim_mod3 DEFAULT_RULES [1; 2; 3]%float
                   = Raise IndexError) by (vm_compute; reflexivity).
  split; [exact Hraise|].
  apply (@complete_rules_scorer_failures sim_mod3 DEFAULT_RULES
           [1; 2; 3]%float IndexError); [|exact Hraise].
  intros k Hk. exact Hk.
Defined.

(** X4 at five closes and the window of the scorer. *)
Lemma rsi_neutral_on_short_history_witness :
  @rsi sim_mod3 closes_short 14 = Ok 50%float.
Proof.
  apply (@rsi_neutral_on_short_history sim_mod3 closes_short 14);
    [lia | simpl; lia].
Defined.

(** X5 at five closes under the default rules. *)
Lemma scorer_returns_on_short_history_witness :
  exists score : float, @classical_score sim_mod3 DEFAULT_RULES closes_short = Ok score.
Proof.
  apply (@scorer_returns_on_short_history sim_mod3 DEFAULT_RULES closes_short).
  - intros k Hk. exact Hk.
  - simpl. lia.
  - intros c4 Hc4. vm_compute in Hc4. inversion Hc4. vm_compute. reflexivity.
Defined.

(** X11 at two records that differ in their volatility only. *)
Lemma build_circuit_reads_prices_only_witness :
  match @build_circuit sim_mod3
          {[ "spot_price" := 100%float; "strike_price" := 105%float;
             "volatility" := 0.25%float ]},
        @build_circuit sim_mod3
          {[ "spot_price" := 100%float; "strike_price" := 105%float ]} with
  | Ok c1, Ok c2 => ry_theta c1 = ry_theta c2
  | Raise e1, Raise e2 => e1 = e2
  | _, _ => False
  end.
Proof.
  apply (@build_circuit_reads_prices_only sim_mod3); vm_compute; reflexivity.
Defined.

(** X13 at 60 ones and 40 zeros: bullish, with confidence 0.2. *)
Lemma fusion_of_submitted_witness :
  exists ones zeros : Z,
    (<["0" := 40]> (<["1" := 60]> ∅) : Histogram) !! "1" = Some ones /\
    (<["0" := 40]> (<["1" := 60]> ∅) : Histogram) !! "0" = Some zeros /\
    0 <= ones /\ 0 <= zeros /\ ones + zeros = 100 /\
    fused_signal (<["0" := 40]> (<["1" := 60]> ∅))
    = (if zeros <=? ones then 1 else -1) /\
    fused_confidence (<["0" := 40]> (<["1" := 60]> ∅))
    = Py.hundredths false (Z.abs (ones - zeros)).
Proof.
  apply fusion_of_submitted. exists 60.
  split; [unfold shots_per_row; lia | reflexivity].
Defined.

(** X14 at the circuits of three records on the simulator. *)
Lemma submit_histograms_witness :
  exists (hists : list Histogram) (w' : @World sim_mod3),
    submit (match result_mapM (@build_circuit sim_mod3) feats3 with
            | Ok cs => cs
            | Raise _ => []
            end) world_roomy = (Ok hists, w') /\
    length hists = 3%nat /\
    Forall (fun h : Histogram =>
              dom h = ({["0"; "1"]} : gset string) /\
              exists ones zeros : Z,
                h !! "1" = Some ones /\ h !! "0" = Some zeros /\
                0 <= ones /\ 0 <= zeros /\ ones + zeros = shots_per_row) hists.
Proof.
  set (cs := match result_mapM (@build_circuit sim_mod3) feats3 with
             | Ok cs => cs
             | Raise _ => []
             end).
  set (r := submit cs world_roomy).
  set (hists := match fst r with Ok hists => hists | Raise _ => [] end).
  assert (Hfst : fst r = Ok hists) by (vm_compute; reflexivity).
  assert (Hrun : r = (Ok hists, snd r))
    by (rewrite <- Hfst; apply surjective_pairing).
  exists hists, (snd r). split; [exact Hrun|].
  destruct (submit_histograms cs world_roomy (snd r) hists Hrun)
    as (Hlen & Hall & _).
  split; [|exact Hall]. rewrite Hlen. vm_compute. reflexivity.
Defined.

(** X18 at a rising market under the default rules: every row is a hit. *)
Lemma hit_rate_extremes_witness :
  exists (rows : list BacktestRow) (w' : @World sim_mod3),
    run_backtest "AAPL" 91 world_rise = (Ok (rows, 1%float), w') /\
    rows <> [] /\
    Forall (fun r => Py.eq (ret_7d r) 0 = true -> is_hit r = false) rows.
Proof.
  set (r := run_backtest "AAPL" 91 world_rise).
  set (rows := match fst r with Ok (rows, _) => rows | Raise _ => [] end).
  assert (Hfst : fst r = Ok (rows, 1%float)) by (vm_compute; reflexivity).
  assert (Hrun : r = (Ok (rows, 1%float), snd r))
    by (rewrite <- Hfst; apply surjective_pairing).
  exists rows, (snd r). split; [exact Hrun|].
  destruct (hit_rate_extremes "AAPL" 91 world_rise (snd r) rows 1%float Hrun)
    as (Hne & _ & _ & Hzero).
  split; [exact Hne | exact Hzero].
Defined.

(** X19 at the trial that samples a trend weight of -0.5. *)
Lemma objective_records_sample_witness :
  user_attrs (fst (fst (objective trial_bear 0.1 world_rise)))
  !! "ma_trend_weight" = Some (-0.5)%float.
Proof.
  set (r := objective trial_bear 0.1 world_rise).
  assert (Hrun : r = ((fst (fst r), snd (fst r)), snd r))
    by (by destruct r as [[t m] w']).
  destruct (objective_records_sample trial_bear (fst (fst r)) 0.1
              (snd (fst r)) world_rise (snd r) Hrun)
    as (Hin & _ & _).
  apply (Hin "ma_trend_weight" (-1)%float 1%float). apply elem_of_cons. by left.
Defined.

(** X20 at the same trial, written over a malformed [best_params.json]. *)
Lemma tuned_params_round_trip_witness :
  exists rules : gmap string float,
    load_rules (write_best_params
                  (fst (fst (objective trial_bear 0.1 world_rise)))
                  files_malformed) = Ok rules /\
    dom rules = dom DEFAULT_RULES /\
    rules !! "ma_trend_weight" = Some (-0.5)%float /\
    rules !! "rsi_high" = Some 70%float.
Proof.
  set (r := objective trial_bear 0.1 world_rise).
  set (m := match snd (fst r) with Ok m => m | Raise _ => 0%float end).
  assert (Hsnd : snd (fst r) = Ok m) by (vm_compute; reflexivity).
  assert (Hrun : r = ((fst (fst r), Ok m), snd r))
    by (rewrite <- Hsnd; by destruct r as [[t m'] w']).
  destruct (tuned_params_round_trip trial_bear (fst (fst r)) 0.1 m world_rise
              (snd r) files_malformed Hrun eq_refl)
    as (rules & Hload & Hdom & Hin & Hout).
  exists rules. split; [exact Hload|]. split; [exact Hdom|]. split.
  - apply (Hin "ma_trend_weight" (-1)%float 1%float). apply elem_of_cons. by left.
  - rewrite (Hout "rsi_high"); [reflexivity|].
    intros Hk. vm_compute in Hk.
    repeat (apply elem_of_cons in Hk as [Hk | Hk]; [discriminate Hk|]).
    by apply elem_of_nil in Hk.
Defined.

(** X23 at two records, both right. *)
Lemma evaluate_accuracy_extremes_witness :
  accuracy (@assessment_evaluate sim_mod3 round3_id logs_right) = Some 1%float /\
  total (@assessment_evaluate sim_mod3 round3_id logs_right) = 2.
Proof.
  destruct (@evaluate_accuracy_extremes sim_mod3 round3_id logs_right)
    as (Hright & _ & Htotal & _).
  - discriminate.
  - split; [|exact Htotal]. apply Hright. repeat constructor.
Defined.

(** X26 at the default rules after a rally that ends in a drop: the
    preview confidence is 1.0 and the signal is bearish. *)
Lemma default_rules_escalate_only_bearish_witness :
  match fst (_classical_predict default_predictor world_down) with
  | Ok (pred, conf) => Py.ge conf QPU_THRESHOLD = true /\ pred = -1
  | Raise _ => False
  end.
Proof.
  destruct (fst (_classical_predict default_predictor world_down))
    as [[pred conf]|e] eqn:Hprev; [|vm_compute in Hprev; discriminate].
  assert (Hge : Py.ge conf QPU_THRESHOLD = true)
    by (vm_compute in Hprev; inversion Hprev; vm_compute; reflexivity).
  split; [exact Hge|].
  apply (default_rules_escalate_only_bearish default_predictor world_down
           pred conf); [reflexivity | exact Hprev | exact Hge].
Defined.

(** X28 at five closes of history. *)
Lemma objective_short_history_witness :
  fst (objective trial_bear 0.1 world_short)
  = (fst (fst (objective trial_bear 0.1 world_short)),
     Raise (ValueError "Not enough historical data for simulation window.")) /\
  snd (objective trial_bear 0.1 world_short) = world_short /\
  user_attrs (fst (fst (objective trial_bear 0.1 world_short)))
  !! "ma_trend_weight" = Some (-0.5)%float.
Proof.
  destruct (objective_short_history trial_bear 0.1%float world_short)
    as (_ & trial' & Hobj & _ & Hin & _); [simpl; lia|].
  rewrite Hobj. cbn [fst snd]. repeat split.
  apply (Hin "ma_trend_weight" (-1)%float 1%float). apply elem_of_cons. by left.
Defined.

(** X29 at three records on the simulator: 66, 67 and 67 of the 100
    repetitions measure 1. *)
Lemma refine_all_length_order_witness :
  fst (refine_all feats3 world_roomy) = Ok ([1; 1; 1], [0.32; 0.34; 0.34]%float) /\
  forall (i : nat) (f : Feature), feats3 !! i = Some f ->
    exists (c : Circuit) (ms : list bool) (wi wi' : @World sim_mod3),
      @build_circuit sim_mod3 f = Ok c /\
      simulator_run c (Z.to_nat shots_per_row) wi = (Ok ms, wi') /\
      [1; 1; 1] !! i = Some (fused_signal (outcome_histogram ms)) /\
      [0.32; 0.34; 0.34]%float !! i = Some (fused_confidence (outcome_histogram ms)).
Proof.
  set (r := refine_all feats3 world_roomy).
  assert (Hfst : fst r = Ok ([1; 1; 1], [0.32; 0.34; 0.34]%float))
    by (vm_compute; reflexivity).
  assert (Hrun : r = (Ok ([1; 1; 1], [0.32; 0.34; 0.34]%float), snd r))
    by (rewrite <- Hfst; apply surjective_pairing).
  split; [exact Hfst|].
  apply (refine_all_length_order feats3 world_roomy (snd r) _ _ Hrun).
Defined.

(** X30 at a rising market under the default rules: thirteen rows, all
    bullish. *)
Lemma simulate_constant_signal_witness :
  exists (rows : list BacktestRow),
    fst (simulate "AAPL" 91 world_rise) = Ok rows /\
    length rows = 13%nat /\
    Forall (fun r => signal r = 1) rows.
Proof.
  set (r := simulate "AAPL" 91 world_rise).
  set (rows := match fst r with Ok rows => rows | Raise _ => [] end).
  assert (Hfst : fst r = Ok rows) by (vm_compute; reflexivity).
  assert (Hrun : r = (Ok rows, snd r))
    by (rewrite <- Hfst; apply surjective_pairing).
  exists rows. split; [exact Hfst|]. split; [vm_compute; reflexivity|].
  destruct (simulate_constant_signal "AAPL" 91 world_rise (snd r) rows Hrun)
    as (_ & pred & conf & Hprev & _ & Hall).
  assert (Hp : fst (_classical_predict default_predictor world_rise)
               = Ok (1, 0%float)) by (vm_compute; reflexivity).
  rewrite Hp in Hprev. inversion Hprev; subst. exact Hall.
Defined.
